(** * InstantSearch.js connectors: rating menu and hierarchical menu

    A shallow embedding of [src/connectors/rating-menu/connectRatingMenu.js]
    and [src/connectors/hierarchical-menu/connectHierarchicalMenu.js], with the
    properties their specification states about them.

    JavaScript numbers are modelled as integers plus [NaN]; objects that the
    connectors share and mutate (the helper, the insights sink, the widget
    instance) are fields of an explicit world that every operation threads. *)

From Stdlib Require Import ZArith List String Ascii Bool Lia.
From Stdlib Require Import DecimalString DecimalZ DecimalPos.
From stdpp Require Import base option list gmap strings.

Local Open Scope string_scope.
Local Open Scope list_scope.
Local Open Scope Z_scope.

(** ** JavaScript values *)

Module JS.

(** A JavaScript number: an integer or [NaN].  Fractions and infinities are
    outside the model. *)
Inductive jsnum : Type :=
| Int (z : Z)
| NaN.

(** The values the connectors pass around: [undefined], a number, a string. *)
Inductive jsval : Type :=
| JUndefined
| JNum (n : jsnum)
| JStr (s : string).

#[global] Instance jsnum_eq_dec : EqDecision jsnum.
Proof. solve_decision. Defined.

#[global] Instance jsval_eq_dec : EqDecision jsval.
Proof. solve_decision. Defined.

(** Decimal rendering of an integer, as [String(n)] and template literals
    print it. *)
Definition string_of_Z (z : Z) : string :=
  NilZero.string_of_int (Z.to_int z).

(** [Number(s)] on a string: a decimal integer literal is its value, the
    empty string is [0], any other string is [NaN] (fractional, exponent,
    hexadecimal and padded literals are outside the model). *)
Definition Number_of_string (s : string) : jsnum :=
  match s with
  | EmptyString => Int 0
  | _ =>
    match NilZero.int_of_string s with
    | Some d => Int (Z.of_int d)
    | None => NaN
    end
  end.

(** [Number(v)]. *)
Definition Number (v : jsval) : jsnum :=
  match v with
  | JUndefined => NaN
  | JNum n => n
  | JStr s => Number_of_string s
  end.

(** [String(v)], also the conversion of [`${v}`] and of ['' + v]. *)
Definition ToString (v : jsval) : string :=
  match v with
  | JUndefined => "undefined"
  | JNum (Int z) => string_of_Z z
  | JNum NaN => "NaN"
  | JStr s => s
  end.

(** Truthiness: [undefined], [0], [NaN] and [''] are falsy. *)
Definition truthy (v : jsval) : bool :=
  match v with
  | JUndefined => false
  | JNum (Int z) => negb (Z.eqb z 0)
  | JNum NaN => false
  | JStr s => negb (String.eqb s "")
  end.

(** [a === b]: no coercion, and [NaN] is not equal to itself. *)
Definition strict_eq (a b : jsval) : bool :=
  match a, b with
  | JUndefined, JUndefined => true
  | JNum (Int x), JNum (Int y) => Z.eqb x y
  | JStr s, JStr t => String.eqb s t
  | _, _ => false
  end.

(** [typeof v === 'number'] ([NaN] is a number). *)
Definition is_number (v : jsval) : bool :=
  match v with
  | JNum _ => true
  | _ => false
  end.

(** [Math.min(x, ...xs)] for at least one argument: [NaN] as soon as one
    argument is [NaN]. *)
Definition min2 (a b : jsnum) : jsnum :=
  match a, b with
  | Int x, Int y => Int (Z.min x y)
  | _, _ => NaN
  end.

Definition Math_min (x : jsnum) (xs : list jsnum) : jsnum :=
  fold_left min2 xs x.

(** [Math.round] is the identity on the integers of the model. *)
Definition Math_round (n : jsnum) : jsnum := n.

(** [for (v = hi; v >= lo; --v) body(v)], as [n] iterations from [hi]
    downwards; the loop runs [hi - lo + 1] times. *)
Fixpoint for_down {S : Type} (n : nat) (hi : Z) (body : Z -> S -> S) (s : S) : S :=
  match n with
  | O => s
  | Datatypes.S n' => for_down n' (hi - 1) body (body hi s)
  end.

(** [for (v = lo; v <= hi; ++v) body(v)], as [n] iterations from [lo]
    upwards. *)
Fixpoint for_up {S : Type} (n : nat) (lo : Z) (body : Z -> S -> S) (s : S) : S :=
  match n with
  | O => s
  | Datatypes.S n' => for_up n' (lo + 1) body (body lo s)
  end.

(** Number of iterations of a loop over the integers [lo..hi]. *)
Definition trips (lo hi : Z) : nat := Z.to_nat (hi + 1 - lo).

(** The integers a counting loop visits: [k] of them, upwards from [lo] or
    downwards from [hi]. *)
Definition upfrom (lo : Z) (k : nat) : list Z :=
  map (fun i => lo + Z.of_nat i) (seq 0 k).

Definition downfrom (hi : Z) (k : nat) : list Z :=
  map (fun i => hi - Z.of_nat i) (seq 0 k).

End JS.

Import JS.

(** ** The search-parameters collaborator *)

Module SearchParams.

(** One hierarchical-facet declaration ([separator] and [rootPath] may be
    absent). *)
Record HierarchicalFacet : Type := mkHierarchicalFacet {
  hf_name : string;
  hf_attributes : list string;
  hf_separator : option string;
  hf_rootPath : option string;
  hf_showParentLevel : bool;
}.

#[global] Instance HierarchicalFacet_eq_dec : EqDecision HierarchicalFacet.
Proof. solve_decision. Defined.

(** Modelled from the spec: the search-parameters object of the
    algoliasearch-helper library, which is not among the sources.  Its fields
    are the ones the two connectors read or write: the facet declarations,
    the refinement lists per attribute (stored as strings), and the
    max-values-per-facet bound ([None] is [undefined]). *)
Record SearchParameters : Type := mkSearchParameters {
  index : string;
  disjunctiveFacets : list string;
  disjunctiveFacetsRefinements : gmap string (list string);
  hierarchicalFacets : list HierarchicalFacet;
  hierarchicalFacetsRefinements : gmap string (list string);
  maxValuesPerFacet : option Z;
}.

Definition emptyParameters : SearchParameters :=
  mkSearchParameters "" [] ∅ [] ∅ None.

Definition set_disjunctiveFacets (l : list string) (p : SearchParameters) :=
  mkSearchParameters (index p) l (disjunctiveFacetsRefinements p)
    (hierarchicalFacets p) (hierarchicalFacetsRefinements p)
    (maxValuesPerFacet p).

Definition set_disjunctiveFacetsRefinements (m : gmap string (list string))
    (p : SearchParameters) :=
  mkSearchParameters (index p) (disjunctiveFacets p) m
    (hierarchicalFacets p) (hierarchicalFacetsRefinements p)
    (maxValuesPerFacet p).

Definition set_hierarchicalFacets (l : list HierarchicalFacet)
    (p : SearchParameters) :=
  mkSearchParameters (index p) (disjunctiveFacets p)
    (disjunctiveFacetsRefinements p) l (hierarchicalFacetsRefinements p)
    (maxValuesPerFacet p).

Definition set_hierarchicalFacetsRefinements (m : gmap string (list string))
    (p : SearchParameters) :=
  mkSearchParameters (index p) (disjunctiveFacets p)
    (disjunctiveFacetsRefinements p) (hierarchicalFacets p) m
    (maxValuesPerFacet p).

(** [setQueryParameter('maxValuesPerFacet', v)]. *)
Definition set_maxValuesPerFacet (v : option Z) (p : SearchParameters) :=
  mkSearchParameters (index p) (disjunctiveFacets p)
    (disjunctiveFacetsRefinements p) (hierarchicalFacets p)
    (hierarchicalFacetsRefinements p) v.

(** Modelled from the spec: "read current refinements for an attribute". *)
Definition getDisjunctiveRefinements (a : string) (p : SearchParameters)
    : list string :=
  default [] (disjunctiveFacetsRefinements p !! a).

Definition isDisjunctiveFacet (a : string) (p : SearchParameters) : bool :=
  bool_decide (a ∈ disjunctiveFacets p).

(** Modelled from the spec: "add ... disjunctive ... facet declarations";
    declaring twice changes nothing. *)
Definition addDisjunctiveFacet (a : string) (p : SearchParameters) :=
  if isDisjunctiveFacet a p then p
  else set_disjunctiveFacets (disjunctiveFacets p ++ [a]) p.

(** Modelled from the spec: [clearRefinements(attribute)] drops the
    attribute's refinements of every kind. *)
Definition clearRefinements (a : string) (p : SearchParameters) :=
  set_hierarchicalFacetsRefinements (delete a (hierarchicalFacetsRefinements p))
    (set_disjunctiveFacetsRefinements (delete a (disjunctiveFacetsRefinements p)) p).

(** Modelled from the spec: "remove ... disjunctive ... facet declarations"
    (with the attribute's refinements, as the test [resets the state] shows). *)
Definition removeDisjunctiveFacet (a : string) (p : SearchParameters) :=
  if isDisjunctiveFacet a p then
    set_disjunctiveFacets
      (filter (fun f => f ≠ a) (disjunctiveFacets p)) (clearRefinements a p)
  else p.

(** Modelled from the spec: "add ... a specific refinement value".  The value
    is stored as a string, once. *)
Definition addDisjunctiveFacetRefinement (a : string) (v : jsnum)
    (p : SearchParameters) :=
  let s := ToString (JNum v) in
  let cur := getDisjunctiveRefinements a p in
  if bool_decide (s ∈ cur) then p
  else set_disjunctiveFacetsRefinements
         (<[a := cur ++ [s]]> (disjunctiveFacetsRefinements p)) p.

(** Modelled from the spec: "remove a specific refinement value", called
    without a value: every refinement of the attribute goes, the (empty) entry
    stays. *)
Definition removeDisjunctiveFacetRefinement (a : string)
    (p : SearchParameters) :=
  set_disjunctiveFacetsRefinements
    (alter (fun _ => []) a (disjunctiveFacetsRefinements p)) p.

Definition isHierarchicalFacet (n : string) (p : SearchParameters) : bool :=
  bool_decide (n ∈ map hf_name (hierarchicalFacets p)).

Definition getHierarchicalFacetByName (n : string) (p : SearchParameters)
    : option HierarchicalFacet :=
  List.find (fun f => bool_decide (hf_name f = n)) (hierarchicalFacets p).

(** Modelled from the spec: "remove ... hierarchical facet declarations"
    (with the facet's refinements). *)
Definition removeHierarchicalFacet (n : string) (p : SearchParameters) :=
  if isHierarchicalFacet n p then
    set_hierarchicalFacets
      (filter (fun f => hf_name f ≠ n) (hierarchicalFacets p))
      (clearRefinements n p)
  else p.

(** Modelled from the spec: "add ... hierarchical facet declarations". *)
Definition addHierarchicalFacet (f : HierarchicalFacet) (p : SearchParameters) :=
  set_hierarchicalFacets (hierarchicalFacets p ++ [f]) p.

(** Modelled from the spec: the single active path of a hierarchical facet. *)
Definition addHierarchicalFacetRefinement (n : string) (path : string)
    (p : SearchParameters) :=
  set_hierarchicalFacetsRefinements
    (<[n := [path]]> (hierarchicalFacetsRefinements p)) p.

Definition getHierarchicalRefinement (n : string) (p : SearchParameters)
    : list string :=
  default [] (hierarchicalFacetsRefinements p !! n).

End SearchParams.

Import SearchParams.

(** ** Strings: [split], [join], [trim] *)

Module Str.

Definition is_space (c : ascii) : bool :=
  match nat_of_ascii c with
  | 9%nat | 10%nat | 11%nat | 12%nat | 13%nat | 32%nat => true
  | _ => false
  end.

Fixpoint trimStart (s : string) : string :=
  match s with
  | String c s' => if is_space c then trimStart s' else s
  | EmptyString => EmptyString
  end.

(** [s.trim()] over the ASCII white space. *)
Definition trim (s : string) : string :=
  String.rev (trimStart (String.rev (trimStart s))).

(** [parts.join(sep)]. *)
Definition join (sep : string) (parts : list string) : string :=
  String.concat sep parts.

(** The scan of [s.split(sep)] for a non-empty [sep]: [skip] characters of a
    separator just matched are still to be dropped, [acc] is the current part,
    reversed. *)
Fixpoint split_go (sep : string) (skip : nat) (acc : string) (s : string)
    : list string :=
  match s with
  | EmptyString => [String.rev acc]
  | String c s' =>
    match skip with
    | S k => split_go sep k acc s'
    | O =>
      if String.prefix sep s
      then String.rev acc :: split_go sep (Nat.pred (String.length sep)) EmptyString s'
      else split_go sep O (String c acc) s'
    end
  end.

(** [s.split(sep)]; an empty separator splits into characters. *)
Definition split (sep : string) (s : string) : list string :=
  match sep with
  | EmptyString => map (fun c => String c EmptyString) (list_ascii_of_string s)
  | _ => split_go sep O EmptyString s
  end.

End Str.

(** ** Shared shapes: UI state, helper, insights sink *)

(** The serialisable UI state, with the two namespaces of the connectors. *)
Record UiState : Type := mkUiState {
  ratingMenu : option (gmap string jsval);
  hierarchicalMenu : option (gmap string (list string));
}.

Definition emptyUiState : UiState := mkUiState None None.

(** The helper: the current search parameters and the number of calls of
    [helper.search()] so far. *)
Record Helper : Type := mkHelper {
  state : SearchParameters;
  searches : nat;
}.

Definition getIndex (h : Helper) : string := index (state h).

Definition search (h : Helper) : Helper :=
  mkHelper (state h) (S (searches h)).

Definition change (f : SearchParameters -> SearchParameters) (h : Helper) : Helper :=
  mkHelper (f (state h)) (searches h).

(** What [instantSearchInstance.sendEventToInsights] receives. *)
Record InsightsEvent : Type := mkInsightsEvent {
  insightsMethod : string;
  widgetType : string;
  eventType : jsval;
  payload_eventName : jsval;
  payload_index : string;
  payload_filters : list string;
}.

Inductive SinkCall : Type :=
| Custom (payload : jsval)
| Sent (e : InsightsEvent).

(** ** connectRatingMenu.js *)

Module RatingMenu.

Definition type : string := "ais.ratingMenu".

(** The integers [n, n+1, ..., max] (none when [n > max]): the refinement set
    the spec gives for the threshold [n]. *)
Definition thresholdsFrom (n max : Z) : list Z := upfrom n (trips n max).


(** One reported facet value of [results.getFacetValues(attribute)]. *)
Record FacetValue : Type := mkFacetValue {
  name : string;
  count : Z;
}.

Record Results : Type := mkResults {
  facetValues : option (list FacetValue);
  nbHits : Z;
}.

(** [StarRatingItems]. *)
Record StarRatingItem : Type := mkItem {
  stars : list bool;
  item_name : string;
  item_value : string;
  item_count : Z;
  isRefined : bool;
}.

(** The helper and the insights sink, both shared with the closures
    [refine] and [sendEvent]. *)
Record World : Type := mkWorld {
  helper : Helper;
  insights : list SinkCall;
}.

Definition sendEventToInsights (c : SinkCall) (w : World) : World :=
  mkWorld (helper w) (insights w ++ [c]).

Definition with_helper (f : Helper -> Helper) (w : World) : World :=
  mkWorld (f (helper w)) (insights w).

(** Modelled from the spec: [range] of [lib/utils], which is not among the
    sources: the integers from [start] up to, not including, [end]. *)
Definition range (start : jsnum) (end_ : Z) : list jsnum :=
  match start with
  | Int s => map (fun i => Int (s + Z.of_nat i)) (seq 0 (Z.to_nat (end_ - s)))
  | NaN => []
  end.

(** The value a reported facet stands for, and the sum of the counts of a
    list of reported facets. *)
Definition reportedValue (f : FacetValue) : jsnum := Number (JStr (name f)).

Definition sumCounts (l : list FacetValue) : Z :=
  fold_right (fun f acc => count f + acc) 0 l.

Definition atLeast (t : Z) (f : FacetValue) : bool :=
  match reportedValue f with
  | Int v => Z.leb t v
  | NaN => false
  end.

Definition atMost (max : Z) (f : FacetValue) : bool :=
  match reportedValue f with
  | Int v => Z.leb v max
  | NaN => false
  end.


(** The same sum over the reported values [v] with [t <= v <= max]. *)
Definition cumulative (max : Z) (facets : list FacetValue) (t : Z) : Z :=
  sumCounts (List.filter (fun f => atLeast t f && atMost max f) facets).

Section Widget.

Variable attribute : string.
Variable max : Z.

Definition getRefinedStar (p : SearchParameters) : jsval :=
  match getDisjunctiveRefinements attribute p with
  | [] => JUndefined
  | r :: rs =>
    JNum (Math_min (Number (JStr r)) (map (fun x => Number (JStr x)) rs))
  end.

(** [createSendEvent]: the function [sendEvent(...args)]. *)
Definition sendEvent (args : list jsval) (w : World) : World :=
  match args with
  | [a] => sendEventToInsights (Custom a) w
  | _ =>
    let eventType := nth 0 args JUndefined in
    let facetValue := nth 1 args JUndefined in
    let eventName :=
      match nth 2 args JUndefined with
      | JUndefined => JStr "Filter Applied"
      | v => v
      end in
    if negb (strict_eq eventType (JStr "click")) then w
    else
      let isRefined :=
        strict_eq (getRefinedStar (state (helper w))) (JNum (Number facetValue)) in
      if negb isRefined then
        sendEventToInsights
          (Sent (mkInsightsEvent "clickedFilters" type eventType eventName
                   (getIndex (helper w))
                   [attribute +:+ ">=" +:+ ToString facetValue])) w
      else w
  end.

(** [toggleRefinement(helper, facetValue)], the [refine] of the render
    state.  The loop [for (val = Number(facetValue); val <= max; ++val)] does
    not run when [Number(facetValue)] is [NaN]. *)
Definition toggleRefinement (facetValue : jsval) (w : World) : World :=
  let w := sendEvent [JStr "click"; facetValue] w in
  let isRefined :=
    strict_eq (getRefinedStar (state (helper w))) (JNum (Number facetValue)) in
  let w := with_helper (change (removeDisjunctiveFacetRefinement attribute)) w in
  let w :=
    if negb isRefined then
      match Number facetValue with
      | Int n =>
        for_up (trips n max) n
          (fun val => with_helper (change (addDisjunctiveFacetRefinement attribute (Int val))))
          w
      | NaN => w
      end
    else w in
  with_helper search w.

Definition refine := toggleRefinement.

(** [val > max]. *)
Definition gt_max (val : jsnum) : bool :=
  match val with
  | Int z => Z.ltb max z
  | NaN => false
  end.

(** The table [allValues]: [0] for every value [max..0], then each reported
    facet adds its count to every entry from its (rounded) value down to [1].
    The entries incremented were all initialised, [val] being at most [max]. *)
Definition initValues : gmap Z Z :=
  for_down (trips 0 max) max (fun v m => <[v := 0]> m) ∅.

Definition addFacet (m : gmap Z Z) (facet : FacetValue) : gmap Z Z :=
  let val := Math_round (Number (JStr (name facet))) in
  if negb (truthy (JNum val)) || gt_max val then m
  else
    match val with
    | Int z => for_down (trips 1 z) z (fun v m => alter (fun c => c + count facet) v m) m
    | NaN => m
    end.

Definition allValues (facets : list FacetValue) : gmap Z Z :=
  fold_left addFacet facets initValues.

(** [stars]: [i <= star] for [i] from [1] to [max]. *)
Definition starsOf (star : Z) : list bool :=
  for_up (trips 1 max) 1 (fun i l => l ++ [Z.leb i star]) [].

(** [refinedStar && star !== refinedStar && count === 0]: the round of the
    loop over [star] that [continue] cuts short. *)
Definition skipped (refinedStar : jsval) (count : Z) (star : Z) : bool :=
  truthy refinedStar && negb (strict_eq (JNum (Int star)) refinedStar)
  && Z.eqb count 0.

(** The item pushed for [star]. *)
Definition itemOf (refinedStar : jsval) (count : Z) (star : Z) : StarRatingItem :=
  mkItem (starsOf star) (string_of_Z star) (string_of_Z star) count
    (strict_eq refinedStar (JNum (Int star))).

(** One round of the loop over [star]: skipped, or one item pushed.  The
    entries read, [max-1..1], were all initialised. *)
Definition pushStar (values : gmap Z Z) (refinedStar : jsval) (star : Z)
    (acc : list StarRatingItem) : list StarRatingItem :=
  let count := default 0 (values !! star) in
  if skipped refinedStar count star then acc
  else acc ++ [itemOf refinedStar count star].

(** The thresholds the loop visits: [max-1, max-2, ..., 1]. *)
Definition thresholds : list Z := downfrom (max - 1) (trips 1 (max - 1)).

(** The [items] of [getWidgetRenderState]. *)
Definition items (results : option Results) (p : SearchParameters)
    : list StarRatingItem :=
  match results with
  | None => []
  | Some r =>
    let values := allValues (default [] (facetValues r)) in
    let refinedStar := getRefinedStar p in
    for_down (trips 1 (max - 1)) (max - 1) (pushStar values refinedStar) []
  end.

(** The test scenario of the spec: [max = 5] and the counts
    [{0:5, 1:10, 2:20, 3:50, 4:900, 5:100}]. *)
Definition scenario : Results :=
  mkResults
    (Some [mkFacetValue "0" 5; mkFacetValue "1" 10; mkFacetValue "2" 20;
           mkFacetValue "3" 50; mkFacetValue "4" 900; mkFacetValue "5" 100])
    1085.

Definition hasNoResults (results : option Results) : bool :=
  match results with
  | Some r => Z.eqb (nbHits r) 0
  | None => true
  end.

Definition getWidgetUiState (uiState : UiState) (searchParameters : SearchParameters)
    : UiState :=
  let value := getRefinedStar searchParameters in
  if negb (is_number value) then uiState
  else
    mkUiState
      (Some (<[attribute := value]> (default ∅ (ratingMenu uiState))))
      (hierarchicalMenu uiState).

Definition getWidgetSearchParameters (searchParameters : SearchParameters)
    (uiState : UiState) : SearchParameters :=
  let value :=
    match ratingMenu uiState with
    | Some m => default JUndefined (m !! attribute)
    | None => JUndefined
    end in
  let withoutRefinements := clearRefinements attribute searchParameters in
  let withDisjunctiveFacet := addDisjunctiveFacet attribute withoutRefinements in
  if negb (truthy value) then
    set_disjunctiveFacetsRefinements
      (<[attribute := []]> (disjunctiveFacetsRefinements withDisjunctiveFacet))
      withDisjunctiveFacet
  else
    fold_left
      (fun parameters number =>
         addDisjunctiveFacetRefinement attribute number parameters)
      (range (Number value) (max + 1))
      withDisjunctiveFacet.

(** [dispose]. *)
Definition dispose (p : SearchParameters) : SearchParameters :=
  removeDisjunctiveFacet attribute p.

End Widget.

(** The parameters [refine('0')] leaves behind, starting from a widget on
    ["grade"] with nothing refined. *)
Definition refinedAtZero : SearchParameters :=
  state (helper (refine "grade" 5 (JStr "0")
                   (mkWorld (mkHelper emptyParameters 0) []))).

(** The parameters [refine('5')] leaves behind in the same way: the only
    refinement is [max] itself. *)
Definition refinedAtMax : SearchParameters :=
  state (helper (refine "grade" 5 (JStr "5")
                   (mkWorld (mkHelper emptyParameters 0) []))).

End RatingMenu.

(** Modelled from the spec: "compute the breadcrumb path for a hierarchical
    facet" of the search-parameters collaborator: the active path, split at
    the declared facet's separator ([" > "] when none is declared), each
    segment trimmed. *)
Definition facetSeparator (f : option HierarchicalFacet) : string :=
  match f with
  | Some f =>
    match hf_separator f with
    | Some s => if String.eqb s "" then " > " else s
    | None => " > "
    end
  | None => " > "
  end.

Definition breadcrumbOf (sep : string) (refinement : string) : list string :=
  if String.eqb refinement "" then []
  else map Str.trim (Str.split sep refinement).

Definition getHierarchicalFacetBreadcrumb (n : string) (p : SearchParameters)
    : list string :=
  match getHierarchicalRefinement n p with
  | [] => []
  | refinement :: _ =>
    breadcrumbOf (facetSeparator (getHierarchicalFacetByName n p)) refinement
  end.

(** [array.slice(0, end)]: a negative [end] counts from the end of the
    array. *)
Definition slice_end (len : nat) (e : Z) : nat :=
  if Z.ltb e 0 then Z.to_nat (Z.max (Z.of_nat len + e) 0)
  else Nat.min (Z.to_nat e) len.

Definition slice0 {A : Type} (e : Z) (l : list A) : list A :=
  firstn (slice_end (length l) e) l.

(** [l.slice(0, end).map(f)] in one pass over [l], so that a function defined
    by recursion on a tree can be mapped over the kept children. *)
Fixpoint take_map {A B : Type} (f : A -> B) (k : nat) (l : list A) {struct l}
    : list B :=
  match l with
  | [] => []
  | x :: xs =>
    match k with
    | O => []
    | S k' => f x :: take_map f k' xs
    end
  end.

Definition slice0_map {A B : Type} (f : A -> B) (e : Z) (l : list A) : list B :=
  take_map f (slice_end (length l) e) l.

(** ** connectHierarchicalMenu.js *)

Module HierarchicalMenu.

Definition type : string := "ais.hierarchicalMenu".

(** A node of the tree [results.getFacetValues(name, { sortBy })] returns;
    [data] is the array of children, or absent. *)
#[warnings="-register-all"]
Inductive FacetValue : Type :=
| mkFacetValue (name path : string) (count : Z) (isRefined : bool)
    (data : option (list FacetValue)).

(** [HierarchicalMenuItem]: the same node with [name] and [path] renamed to
    [label] and [value]. *)
#[warnings="-register-all"]
Inductive Item : Type :=
| mkItem (label value : string) (count : Z) (isRefined : bool)
    (data : option (list Item)).

Definition item_data (i : Item) : option (list Item) :=
  match i with mkItem _ _ _ _ d => d end.



Record Results : Type := mkResults {
  data : option (list FacetValue);
}.

(** The render context the orchestrator passes to [init] and [render]; the
    helper it also carries is the shared one of the world. *)
Record RenderOptions : Type := mkRenderOptions {
  results : option Results;
  ro_state : SearchParameters;
}.

Record RenderState : Type := mkRenderState {
  items : list Item;
  rs_isShowingMore : bool;
  canToggleShowMore : bool;
}.

(** The widget instance ([isShowingMore], the closure variable
    [toggleShowMore]: [None] is the initial [() => {}], [Some ro] the closure
    [createToggleShowMore(ro)]), the shared helper, and the calls received by
    [renderFn], [transformItems] and [unmountFn]. *)
Record World : Type := mkWorld {
  isShowingMore : bool;
  toggleShowMore : option RenderOptions;
  helper : Helper;
  rendered : list (RenderState * bool);
  transformed : list (list Item);
  unmounted : nat;
}.

Definition initialWorld (h : Helper) : World :=
  mkWorld false None h [] [] 0.

Section Widget.

Variable hierarchicalFacetName : string.
Variable otherAttributes : list string.
Variable separator : string.
Variable rootPath : option string.
Variable showParentLevel : bool.
Variable limit : Z.
Variable showMore : bool.
Variable showMoreLimit : Z.
Variable transformItems : list Item -> list Item.

(** [const [hierarchicalFacetName] = attributes]: the array is not empty. *)
Definition attributes : list string := hierarchicalFacetName :: otherAttributes.

(** The guard of the factory on the show-more bounds. *)
Definition validOptions : bool :=
  negb (showMore && Z.leb showMoreLimit limit).

Definition getLimit (w : World) : Z :=
  if isShowingMore w then showMoreLimit else limit.

(** The callback [_prepareFacetValues] maps over a level: [name] and [path]
    become [label] and [value], and an array of children is prepared in the
    same way, with the same limit. *)
Fixpoint prepareFacetValue (lim : Z) (fv : FacetValue) : Item :=
  match fv with
  | mkFacetValue label value count isRefined data =>
    mkItem label value count isRefined
      (option_map (slice0_map (prepareFacetValue lim) lim) data)
  end.

Definition _prepareFacetValues (w : World) (facetValues : list FacetValue)
    : list Item :=
  slice0_map (prepareFacetValue (getLimit w)) (getLimit w) facetValues.

(** [state.maxValuesPerFacet > currentLimit] ([undefined > n] is false). *)
Definition bound_gt (bound : option Z) (currentLimit : Z) : bool :=
  match bound with
  | Some b => Z.ltb currentLimit b
  | None => false
  end.

Definition getHasExhaustiveItems (ro : RenderOptions) (w : World) : bool :=
  match results ro with
  | None => false
  | Some r =>
    let facetValues := default [] (data r) in
    let currentLimit := getLimit w in
    if bound_gt (maxValuesPerFacet (ro_state ro)) currentLimit
    then Z.leb (Z.of_nat (length facetValues)) currentLimit
    else Z.ltb (Z.of_nat (length facetValues)) currentLimit
  end.

(** The spec's exhaustiveness test, in its words: there are results, and the
    number of facet values is at most the current limit when the configured
    bound is greater than that limit, and below the limit otherwise. *)
Definition spec_exhaustive (ro : RenderOptions) (w : World) : Prop :=
  exists r, results ro = Some r /\
    let n := Z.of_nat (length (default [] (data r))) in
    let boundGreater :=
      exists b, maxValuesPerFacet (ro_state ro) = Some b /\ getLimit w < b in
    (boundGreater -> n <= getLimit w) /\ (~ boundGreater -> n < getLimit w).

Definition getWidgetRenderState (ro : RenderOptions) (w : World)
    : RenderState * World :=
  let facetValues :=
    match results ro with
    | Some r => default [] (data r)
    | None => []
    end in
  let arg :=
    match results ro with
    | Some _ => _prepareFacetValues w facetValues
    | None => []
    end in
  let items := transformItems arg in
  (mkRenderState items (isShowingMore w)
     (showMore && (isShowingMore w || negb (getHasExhaustiveItems ro w))),
   mkWorld (isShowingMore w) (toggleShowMore w) (helper w) (rendered w)
     (transformed w ++ [arg]) (unmounted w)).

Definition renderFn (rs : RenderState) (isFirstRendering : bool) (w : World)
    : World :=
  mkWorld (isShowingMore w) (toggleShowMore w) (helper w)
    (rendered w ++ [(rs, isFirstRendering)]) (transformed w) (unmounted w).

Definition init (initOptions : RenderOptions) (w : World) : World :=
  let '(rs, w) := getWidgetRenderState initOptions w in
  renderFn rs true w.

Definition render (renderOptions : RenderOptions) (w : World) : World :=
  let w :=
    mkWorld (isShowingMore w) (Some renderOptions) (helper w) (rendered w)
      (transformed w) (unmounted w) in
  let '(rs, w) := getWidgetRenderState renderOptions w in
  renderFn rs false w.

(** [createToggleShowMore(renderOptions)()]. *)
Definition createToggleShowMore (renderOptions : RenderOptions) (w : World)
    : World :=
  let w :=
    mkWorld (negb (isShowingMore w)) (toggleShowMore w) (helper w)
      (rendered w) (transformed w) (unmounted w) in
  render renderOptions w.

(** [cachedToggleShowMore], the [toggleShowMore] of the render state. *)
Definition cachedToggleShowMore (w : World) : World :=
  match toggleShowMore w with
  | Some renderOptions => createToggleShowMore renderOptions w
  | None => w
  end.

Definition dispose (p : SearchParameters) (w : World)
    : SearchParameters * World :=
  (set_maxValuesPerFacet None (removeHierarchicalFacet hierarchicalFacetName p),
   mkWorld (isShowingMore w) (toggleShowMore w) (helper w) (rendered w)
     (transformed w) (S (unmounted w))).

Definition getWidgetUiState (uiState : UiState)
    (searchParameters : SearchParameters) : UiState :=
  let path := getHierarchicalFacetBreadcrumb hierarchicalFacetName searchParameters in
  match path with
  | [] => uiState
  | _ =>
    mkUiState (ratingMenu uiState)
      (Some (<[hierarchicalFacetName := path]> (default ∅ (hierarchicalMenu uiState))))
  end.

(** The declaration [getWidgetSearchParameters] registers. *)
Definition facetConfiguration : HierarchicalFacet :=
  mkHierarchicalFacet hierarchicalFacetName attributes (Some separator)
    rootPath showParentLevel.

Definition getWidgetSearchParameters (searchParameters : SearchParameters)
    (uiState : UiState) : SearchParameters :=
  let values :=
    match hierarchicalMenu uiState with
    | Some m => m !! hierarchicalFacetName
    | None => None
    end in
  let withFacetConfiguration :=
    addHierarchicalFacet facetConfiguration
      (removeHierarchicalFacet hierarchicalFacetName searchParameters) in
  let currentMaxValuesPerFacet :=
    default 0 (maxValuesPerFacet withFacetConfiguration) in
  let nextMaxValuesPerFacet :=
    Z.max currentMaxValuesPerFacet (if showMore then showMoreLimit else limit) in
  let withMaxValuesPerFacet :=
    set_maxValuesPerFacet (Some nextMaxValuesPerFacet) withFacetConfiguration in
  match values with
  | None =>
    set_hierarchicalFacetsRefinements
      (<[hierarchicalFacetName := []]>
         (hierarchicalFacetsRefinements withMaxValuesPerFacet))
      withMaxValuesPerFacet
  | Some values =>
    addHierarchicalFacetRefinement hierarchicalFacetName
      (Str.join separator values) withMaxValuesPerFacet
  end.

End Widget.

(** Parameters in which the facet ["cat"] was declared by another widget
    with the separator ["/"], refined to the path ["a > b/c"]. *)
Definition declaredWithSlash : SearchParameters :=
  mkSearchParameters "" [] ∅
    [mkHierarchicalFacet "cat" ["cat"] (Some "/") None true]
    {[ "cat" := ["a > b/c"] ]} None.

End HierarchicalMenu.

(** ** The round trip through the UI state *)

(** [getWidgetSearchParameters(p, { uiState: getWidgetUiState({}, {
    searchParameters: p }) })] for each connector. *)
Definition ratingRoundTrip (attribute : string) (max : Z) (p : SearchParameters)
    : SearchParameters :=
  RatingMenu.getWidgetSearchParameters attribute max p
    (RatingMenu.getWidgetUiState attribute emptyUiState p).

Definition hierarchicalRoundTrip (hierarchicalFacetName : string)
    (otherAttributes : list string) (separator : string)
    (rootPath : option string) (showParentLevel : bool)
    (limit : Z) (showMore : bool) (showMoreLimit : Z) (p : SearchParameters)
    : SearchParameters :=
  HierarchicalMenu.getWidgetSearchParameters hierarchicalFacetName
    otherAttributes separator rootPath showParentLevel limit showMore
    showMoreLimit p
    (HierarchicalMenu.getWidgetUiState hierarchicalFacetName emptyUiState p).

(** ** [getRenderState]: the render states of an index, per namespace *)

Module RenderStates.

(** The data of the rating menu's widget render state ([items] and
    [hasNoResults]; its other fields are closures). *)
Record RatingRenderState : Type := mkRatingRenderState {
  rating_items : list RatingMenu.StarRatingItem;
  rating_hasNoResults : bool;
}.

(** The render state [getRenderState] extends: one object per widget kind,
    keyed by attribute. *)
Record IndexRenderState : Type := mkIndexRenderState {
  rs_ratingMenu : option (gmap string RatingRenderState);
  rs_hierarchicalMenu : option (gmap string HierarchicalMenu.RenderState);
}.

(** [getWidgetRenderState] of the rating menu, its data fields. *)
Definition ratingWidgetRenderState (attribute : string) (max : Z)
    (results : option RatingMenu.Results) (state : SearchParameters)
    : RatingRenderState :=
  mkRatingRenderState (RatingMenu.items attribute max results state)
    (RatingMenu.hasNoResults results).

(** [getRenderState] of the rating menu. *)
Definition ratingGetRenderState (attribute : string) (max : Z)
    (renderState : IndexRenderState)
    (results : option RatingMenu.Results) (state : SearchParameters)
    : IndexRenderState :=
  mkIndexRenderState
    (Some (<[attribute := ratingWidgetRenderState attribute max results state]>
             (default ∅ (rs_ratingMenu renderState))))
    (rs_hierarchicalMenu renderState).

(** [getRenderState] of the hierarchical menu. *)
Definition hierarchicalGetRenderState (hierarchicalFacetName : string)
    (limit : Z) (showMore : bool) (showMoreLimit : Z)
    (transformItems : list HierarchicalMenu.Item -> list HierarchicalMenu.Item)
    (renderState : IndexRenderState)
    (renderOptions : HierarchicalMenu.RenderOptions)
    (w : HierarchicalMenu.World)
    : IndexRenderState * HierarchicalMenu.World :=
  let '(rs, w) :=
    HierarchicalMenu.getWidgetRenderState limit showMore showMoreLimit
      transformItems renderOptions w in
  (mkIndexRenderState (rs_ratingMenu renderState)
     (Some (<[hierarchicalFacetName := rs]>
              (default ∅ (rs_hierarchicalMenu renderState)))),
   w).

End RenderStates.

(** ** Frames *)

(** What the operations on one attribute's disjunctive refinements leave
    alone. *)
Definition sameButRefinementsOf (a : string) (p p' : SearchParameters) : Prop :=
  index p' = index p
  /\ disjunctiveFacets p' = disjunctiveFacets p
  /\ hierarchicalFacets p' = hierarchicalFacets p
  /\ hierarchicalFacetsRefinements p' = hierarchicalFacetsRefinements p
  /\ maxValuesPerFacet p' = maxValuesPerFacet p
  /\ forall b : string, b <> a ->
       disjunctiveFacetsRefinements p' !! b = disjunctiveFacetsRefinements p !! b.

(** The scalar fields of a facet value and of an item, in the order label
    (name), value (path), count, isRefined. *)
Definition facet_fields (fv : HierarchicalMenu.FacetValue)
    : string * string * Z * bool :=
  match fv with
  | HierarchicalMenu.mkFacetValue n p c r _ => (n, p, c, r)
  end.

Definition item_fields (i : HierarchicalMenu.Item) : string * string * Z * bool :=
  match i with
  | HierarchicalMenu.mkItem l v c r _ => (l, v, c, r)
  end.

(** * Properties *)

(** ** Numbers, strings and loops *)

Lemma Number_string_of_Z (z : Z) : Number_of_string (string_of_Z z) = Int z.
Proof.
  unfold Number_of_string, string_of_Z.
  assert (H : NilZero.int_of_string (NilZero.string_of_int (Z.to_int z))
              = Some (Z.to_int z)).
  { apply NilZero.isi; destruct z; simpl; try discriminate;
      intros [= E]; exact (DecimalPos.Unsigned.to_uint_nonnil _ E). }
  destruct (NilZero.string_of_int (Z.to_int z)) eqn:E.
  - simpl in H. discriminate.
  - rewrite H. f_equal. apply DecimalZ.of_to.
Qed.

Lemma string_of_Z_inj (x y : Z) : string_of_Z x = string_of_Z y -> x = y.
Proof.
  intros E. apply (f_equal Number_of_string) in E.
  rewrite !Number_string_of_Z in E. congruence.
Qed.

Lemma upfrom_S (lo : Z) (k : nat) : upfrom lo (S k) = lo :: upfrom (lo + 1) k.
Proof.
  unfold upfrom. simpl. f_equal; [lia|].
  rewrite <- seq_shift, map_map. apply map_ext. intros; lia.
Qed.

Lemma downfrom_S (hi : Z) (k : nat) : downfrom hi (S k) = hi :: downfrom (hi - 1) k.
Proof.
  unfold downfrom. simpl. f_equal; [lia|].
  rewrite <- seq_shift, map_map. apply map_ext. intros; lia.
Qed.

Lemma for_up_fold {S : Type} (body : Z -> S -> S) (k : nat) (lo : Z) (s : S) :
  for_up k lo body s = fold_left (fun s v => body v s) (upfrom lo k) s.
Proof.
  revert lo s. induction k as [|k IH]; intros lo s; [reflexivity|].
  rewrite upfrom_S. simpl. apply IH.
Qed.

Lemma for_down_fold {S : Type} (body : Z -> S -> S) (k : nat) (hi : Z) (s : S) :
  for_down k hi body s = fold_left (fun s v => body v s) (downfrom hi k) s.
Proof.
  revert hi s. induction k as [|k IH]; intros hi s; [reflexivity|].
  rewrite downfrom_S. simpl. apply IH.
Qed.

Lemma elem_of_upfrom (lo : Z) (k : nat) (z : Z) :
  z ∈ upfrom lo k <-> lo <= z < lo + Z.of_nat k.
Proof.
  unfold upfrom. rewrite list_elem_of_In, in_map_iff. split.
  - intros (i & <- & Hi). apply in_seq in Hi. lia.
  - intros H. exists (Z.to_nat (z - lo)). split; [lia|]. apply in_seq. lia.
Qed.

Lemma elem_of_downfrom (hi : Z) (k : nat) (z : Z) :
  z ∈ downfrom hi k <-> hi - Z.of_nat k < z <= hi.
Proof.
  unfold downfrom. rewrite list_elem_of_In, in_map_iff. split.
  - intros (i & <- & Hi). apply in_seq in Hi. lia.
  - intros H. exists (Z.to_nat (hi - z)). split; [lia|]. apply in_seq. lia.
Qed.

Lemma NoDup_upfrom (lo : Z) (k : nat) : NoDup (upfrom lo k).
Proof.
  revert lo. induction k as [|k IH]; intros lo; [constructor|].
  rewrite upfrom_S. constructor; [|apply IH].
  rewrite elem_of_upfrom. lia.
Qed.

(** ** The search parameters *)

Section DisjunctiveRefinements.

Variable a : string.

Lemma refinements_removed (p : SearchParameters) :
  getDisjunctiveRefinements a (removeDisjunctiveFacetRefinement a p) = [].
Proof.
  unfold getDisjunctiveRefinements, removeDisjunctiveFacetRefinement. simpl.
  rewrite lookup_alter_eq. by destruct (disjunctiveFacetsRefinements p !! a).
Qed.

Lemma refinement_added (p : SearchParameters) (l : list Z) (z : Z) :
  getDisjunctiveRefinements a p = map string_of_Z l ->
  z ∉ l ->
  getDisjunctiveRefinements a (addDisjunctiveFacetRefinement a (Int z) p)
  = map string_of_Z (l ++ [z]).
Proof.
  intros Hp Hz. unfold addDisjunctiveFacetRefinement. simpl.
  rewrite bool_decide_eq_false_2.
  - unfold getDisjunctiveRefinements at 1. simpl.
    rewrite lookup_insert_eq. simpl. by rewrite Hp, map_app.
  - rewrite Hp, list_elem_of_In, in_map_iff. intros (y & E & Hy).
    apply string_of_Z_inj in E. subst y. by apply Hz, list_elem_of_In.
Qed.

Lemma refinements_added (zs l : list Z) (p : SearchParameters) :
  getDisjunctiveRefinements a p = map string_of_Z l ->
  NoDup (l ++ zs) ->
  getDisjunctiveRefinements a
    (fold_left (fun p z => addDisjunctiveFacetRefinement a (Int z) p) zs p)
  = map string_of_Z (l ++ zs).
Proof.
  revert l p. induction zs as [|z zs IH]; intros l p Hp Hnd; simpl.
  - by rewrite app_nil_r.
  - replace (l ++ z :: zs) with ((l ++ [z]) ++ zs) in * by by rewrite <- app_assoc.
    apply IH; [|done]. apply refinement_added; [done|].
    apply NoDup_app in Hnd as [Hnd _]. apply NoDup_app in Hnd as (_ & Hd & _).
    intros Hin. apply (Hd z Hin). by apply list_elem_of_singleton.
Qed.


End DisjunctiveRefinements.

(** [Math.min] over the stored strings of an increasing run of integers. *)
Lemma Math_min_upfrom (n : Z) (k : nat) (m : Z) :
  m <= n ->
  Math_min (Int m) (map (fun x => Number (JStr x)) (map string_of_Z (upfrom n k)))
  = Int m.
Proof.
  revert n m. induction k as [|k IH]; intros n m Hm; [reflexivity|].
  rewrite upfrom_S. unfold Math_min in *. simpl.
  rewrite Number_string_of_Z. simpl. rewrite Z.min_l by lia.
  apply IH. lia.
Qed.

(** ** The rating menu: [refine] *)

Section RatingMenuRefine.

Import RatingMenu.

Variable attribute : string.
Variable max : Z.

Local Abbreviation getRefinedStar := (RatingMenu.getRefinedStar attribute).
Local Abbreviation sendEvent := (RatingMenu.sendEvent attribute).
Local Abbreviation refine := (RatingMenu.refine attribute max).
Local Abbreviation refinements w := (getDisjunctiveRefinements attribute (state (helper w))).



Lemma sendEvent_helper (args : list jsval) (w : World) :
  helper (sendEvent args w) = helper w.
Proof.
  unfold RatingMenu.sendEvent.
  destruct args as [|x [|y l]]; simpl; try done;
    repeat match goal with |- context [if ?b then _ else _] => destruct b end;
    done.
Qed.

Lemma added_world (zs : list Z) (w : World) :
  fold_left
    (fun w val =>
       with_helper (change (addDisjunctiveFacetRefinement attribute (Int val))) w)
    zs w
  = mkWorld
      (mkHelper
         (fold_left (fun p z => addDisjunctiveFacetRefinement attribute (Int z) p)
            zs (state (helper w)))
         (searches (helper w)))
      (insights w).
Proof.
  revert w. induction zs as [|z zs IH]; intros w; simpl.
  - by destruct w as [[] ?].
  - by rewrite IH.
Qed.

(** The three components of the world after [refine(v)]. *)
Lemma refine_unfold (v : jsval) (w : World) :
  refine v w =
  let isRefined := strict_eq (getRefinedStar (state (helper w))) (JNum (Number v)) in
  let cleared := removeDisjunctiveFacetRefinement attribute (state (helper w)) in
  mkWorld
    (mkHelper
       (if isRefined then cleared
        else match Number v with
             | Int n =>
               fold_left
                 (fun p z => addDisjunctiveFacetRefinement attribute (Int z) p)
                 (thresholdsFrom n max) cleared
             | NaN => cleared
             end)
       (S (searches (helper w))))
    (insights (sendEvent [JStr "click"; v] w)).
Proof.
  unfold RatingMenu.refine, toggleRefinement. cbv zeta.
  pose proof (sendEvent_helper [JStr "click"; v] w) as Hh.
  destruct (sendEvent [JStr "click"; v] w) as [h1 i1]. simpl in Hh. subst h1.
  simpl helper.
  destruct (strict_eq _ _); [done|]. cbn [negb].
  destruct (Number v) as [n|]; [|done].
  by rewrite for_up_fold, added_world.
Qed.

Lemma refine_refinements (v : jsval) (w : World) :
  refinements (refine v w) =
  if strict_eq (getRefinedStar (state (helper w))) (JNum (Number v)) then []
  else match Number v with
       | Int n => map string_of_Z (thresholdsFrom n max)
       | NaN => []
       end.
Proof.
  rewrite refine_unfold. simpl.
  destruct (strict_eq _ _); [apply refinements_removed|].
  destruct (Number v) as [n|]; [|apply refinements_removed].
  apply (refinements_added attribute _ []).
  - apply refinements_removed.
  - apply NoDup_upfrom.
Qed.



(** After a click that applies the threshold [n <= max], [n] is the active
    threshold. *)
Lemma refine_active (v : jsval) (n : Z) (w : World) :
  Number v = Int n -> n <= max ->
  strict_eq (getRefinedStar (state (helper w))) (JNum (Int n)) = false ->
  getRefinedStar (state (helper (refine v w))) = JNum (Int n).
Proof.
  intros Hv Hn Hne. unfold RatingMenu.getRefinedStar.
  rewrite refine_refinements, Hv, Hne.
  unfold thresholdsFrom, trips.
  replace (Z.to_nat (max + 1 - n)) with (S (Z.to_nat (max - n))) by lia.
  rewrite upfrom_S. simpl. rewrite Number_string_of_Z.
  f_equal. apply Math_min_upfrom. lia.
Qed.

(** After a click on the active threshold nothing is refined. *)
Lemma refine_inactive (v : jsval) (w : World) :
  strict_eq (getRefinedStar (state (helper w))) (JNum (Number v)) = true ->
  getRefinedStar (state (helper (refine v w))) = JUndefined.
Proof.
  intros He. unfold RatingMenu.getRefinedStar.
  by rewrite refine_refinements, He.
Qed.



End RatingMenuRefine.


(** ** The rating menu: the table of counts *)

Lemma NoDup_downfrom (hi : Z) (k : nat) : NoDup (downfrom hi k).
Proof.
  revert hi. induction k as [|k IH]; intros hi; [constructor|].
  rewrite downfrom_S. constructor; [|apply IH].
  rewrite elem_of_downfrom. lia.
Qed.

Lemma lookup_fold_insert (l : list Z) (m : gmap Z Z) (t : Z) :
  fold_left (fun m v => <[v := 0]> m) l m !! t
  = if decide (t ∈ l) then Some 0 else m !! t.
Proof.
  revert m. induction l as [|v l IH]; intros m; simpl; [done|].
  rewrite IH. destruct (decide (t ∈ l)) as [Hl|Hl].
  - rewrite decide_True; [done|]. by right.
  - destruct (decide (v = t)) as [->|Hv].
    + rewrite lookup_insert_eq, decide_True; [done|]. by left.
    + rewrite lookup_insert_ne by done.
      rewrite decide_False; [done|].
      intros [->|?]%elem_of_cons; done.
Qed.

Lemma lookup_fold_alter (g : Z -> Z) (l : list Z) (m : gmap Z Z) (t : Z) :
  NoDup l ->
  fold_left (fun m v => alter g v m) l m !! t
  = if decide (t ∈ l) then g <$> m !! t else m !! t.
Proof.
  intros Hnd. revert m. induction Hnd as [|v l Hv Hnd IH]; intros m; simpl; [done|].
  rewrite IH. destruct (decide (v = t)) as [->|Hne].
  - rewrite decide_False by done. rewrite lookup_alter_eq.
    rewrite decide_True; [done|]. by left.
  - rewrite lookup_alter_ne by done.
    destruct (decide (t ∈ l)) as [Hl|Hl].
    + rewrite decide_True; [done|]. by right.
    + rewrite decide_False; [done|]. intros [->|?]%elem_of_cons; done.
Qed.

Section RatingMenuCounts.

Import RatingMenu.

Variable attribute : string.
Variable max : Z.

Local Abbreviation allValues := (RatingMenu.allValues max).
Local Abbreviation cumulative := (RatingMenu.cumulative max).

Lemma lookup_initValues (t : Z) :
  initValues max !! t = if decide (0 <= t <= max) then Some 0 else None.
Proof.
  unfold initValues. rewrite for_down_fold, lookup_fold_insert, lookup_empty.
  destruct (decide (t ∈ _)) as [H|H]; rewrite elem_of_downfrom in H;
    unfold trips in H; case_decide; try done; lia.
Qed.

(** What one reported facet adds to the entry [t >= 1]. *)
Lemma lookup_addFacet (m : gmap Z Z) (f : FacetValue) (t : Z) :
  1 <= t ->
  addFacet max m f !! t
  = (fun c => c + (if atLeast t f && atMost max f then count f else 0)) <$> m !! t.
Proof.
  intros Ht. unfold addFacet, atLeast, atMost, reportedValue, Math_round.
  assert (Hid : forall o : option Z, o = (fun c => c + 0) <$> o).
  { intros [c|]; simpl; [f_equal; lia|done]. }
  destruct (Number (JStr (name f))) as [z|]; simpl; [|apply Hid].
  destruct (Z.eqb_spec z 0) as [->|Hz]; simpl.
  { rewrite (proj2 (Z.leb_gt t 0)) by lia. apply Hid. }
  destruct (Z.ltb_spec max z) as [Hm|Hm]; simpl.
  { rewrite (proj2 (Z.leb_gt z max)) by lia. rewrite andb_false_r. apply Hid. }
  rewrite (proj2 (Z.leb_le z max)) by lia. rewrite andb_true_r.
  rewrite for_down_fold, lookup_fold_alter by apply NoDup_downfrom.
  destruct (decide (t ∈ _)) as [H|H]; rewrite elem_of_downfrom in H;
    unfold trips in H.
  - by rewrite (proj2 (Z.leb_le t z)) by lia.
  - rewrite (proj2 (Z.leb_gt t z)) by lia. apply Hid.
Qed.

Lemma lookup_fold_addFacet (facets : list FacetValue) (m : gmap Z Z) (t : Z) :
  1 <= t ->
  fold_left (addFacet max) facets m !! t
  = (fun c => c + cumulative facets t) <$> m !! t.
Proof.
  intros Ht. revert m. induction facets as [|f facets IH]; intros m; simpl.
  - destruct (m !! t); simpl; [f_equal; unfold RatingMenu.cumulative; simpl; lia|done].
  - rewrite IH, lookup_addFacet by done.
    destruct (m !! t) as [c|]; simpl; [|done]. f_equal.
    unfold RatingMenu.cumulative. simpl.
    destruct (atLeast t f && atMost max f); simpl; lia.
Qed.

(** Every entry [1..max] of the table holds the cumulative count. *)
Lemma lookup_allValues (facets : list FacetValue) (t : Z) :
  1 <= t <= max ->
  allValues facets !! t = Some (cumulative facets t).
Proof.
  intros Ht. unfold RatingMenu.allValues.
  rewrite lookup_fold_addFacet, lookup_initValues by lia.
  rewrite decide_True by lia. done.
Qed.

End RatingMenuCounts.

(** ** The rating menu: the items *)

Section RatingMenuItems.

Import RatingMenu.

Variable attribute : string.
Variable max : Z.

Local Abbreviation cumulative := (RatingMenu.cumulative max).
Local Abbreviation thresholds := (RatingMenu.thresholds max).
Local Abbreviation itemOf := (RatingMenu.itemOf max).
Local Abbreviation items := (RatingMenu.items attribute max).
Local Abbreviation getRefinedStar := (RatingMenu.getRefinedStar attribute).

Lemma elem_of_thresholds (t : Z) : t ∈ thresholds <-> 1 <= t <= max - 1.
Proof. unfold RatingMenu.thresholds, trips. rewrite elem_of_downfrom. lia. Qed.

Lemma fold_pushStar (values : gmap Z Z) (rs : jsval) (c : Z -> Z)
    (l : list Z) (acc : list StarRatingItem) :
  (forall t, t ∈ l -> values !! t = Some (c t)) ->
  fold_left (fun acc star => pushStar max values rs star acc) l acc
  = acc ++ map (fun star => itemOf rs (c star) star)
             (List.filter (fun star => negb (skipped rs (c star) star)) l).
Proof.
  revert acc. induction l as [|t l IH]; intros acc Hc; simpl.
  - by rewrite app_nil_r.
  - rewrite IH by (intros; apply Hc; by right).
    unfold pushStar. rewrite (Hc t) by by left. simpl.
    destruct (skipped rs (c t) t); simpl; [done|].
    by rewrite <- app_assoc.
Qed.

(** The list of items, threshold by threshold. *)
Lemma items_thresholds (r : Results) (p : SearchParameters) :
  let facets := default [] (facetValues r) in
  let rs := getRefinedStar p in
  items (Some r) p
  = map (fun star => itemOf rs (cumulative facets star) star)
      (List.filter (fun star => negb (skipped rs (cumulative facets star) star))
         thresholds).
Proof.
  intros facets rs. unfold RatingMenu.items.
  rewrite for_down_fold.
  rewrite (fold_pushStar _ _ (cumulative facets)); [done|].
  intros t Ht. apply elem_of_thresholds in Ht.
  apply lookup_allValues. lia.
Qed.

Lemma elem_of_items (r : Results) (p : SearchParameters) (item : StarRatingItem) :
  item ∈ items (Some r) p ->
  exists t, 1 <= t <= max - 1
    /\ item = itemOf (getRefinedStar p) (cumulative (default [] (facetValues r)) t) t.
Proof.
  rewrite items_thresholds. cbv zeta.
  rewrite list_elem_of_In, in_map_iff. intros (t & <- & Ht).
  apply filter_In in Ht as [Ht _].
  exists t. split; [|done]. by apply elem_of_thresholds, list_elem_of_In.
Qed.


(** The stars of an item. *)
Lemma starsOf_eq (star : Z) :
  starsOf max star = map (fun i => Z.leb i star) (upfrom 1 (Z.to_nat max)).
Proof.
  unfold starsOf, trips. rewrite for_up_fold.
  replace (max + 1 - 1) with max by lia.
  assert (H : forall l acc,
             fold_left (fun (s : list bool) (v : Z) => s ++ [Z.leb v star]) l acc
             = acc ++ map (fun i => Z.leb i star) l).
  { induction l as [|i l IH]; intros acc; simpl; [by rewrite app_nil_r|].
    by rewrite IH, <- app_assoc. }
  apply H.
Qed.






Lemma sumCounts_filter_antitone (facets : list FacetValue) (f g : FacetValue -> bool) :
  Forall (fun x => 0 <= count x) facets ->
  (forall x, f x = true -> g x = true) ->
  sumCounts (List.filter f facets) <= sumCounts (List.filter g facets).
Proof.
  intros Hpos Hfg. induction Hpos as [|x l Hx Hl IH]; simpl; [lia|].
  destruct (f x) eqn:Ef.
  - rewrite (Hfg x Ef). simpl. lia.
  - destruct (g x); simpl; lia.
Qed.

Lemma cumulative_antitone (facets : list FacetValue) (s t : Z) :
  Forall (fun f => 0 <= count f) facets -> s <= t ->
  cumulative facets t <= cumulative facets s.
Proof.
  intros Hpos Hst. apply sumCounts_filter_antitone; [done|].
  intros x. unfold atLeast. destruct (reportedValue x); [|done].
  rewrite !andb_true_iff, !Z.leb_le. intros [H1 H2]. split; [lia|done].
Qed.

(** C6: with non-negative counts, the table satisfies
    [cumulative[t] >= cumulative[t+1]] for [t] in [1..max-1], and the counts
    of the items do not increase as the threshold rises. *)
Theorem cumulative_counts_monotone (r : Results) (p : SearchParameters) :
  Forall (fun f => 0 <= count f) (default [] (facetValues r)) ->
  (forall t : Z, 1 <= t <= max - 1 ->
     exists c1 c2 : Z,
       allValues max (default [] (facetValues r)) !! t = Some c1
       /\ allValues max (default [] (facetValues r)) !! (t + 1) = Some c2
       /\ c1 >= c2)
  /\ (forall (a b : StarRatingItem) (s t : Z),
        a ∈ items (Some r) p -> b ∈ items (Some r) p ->
        item_value a = string_of_Z s -> item_value b = string_of_Z t ->
        s <= t -> item_count a >= item_count b).
Proof.
  intros Hpos. split.
  - intros t Ht. eexists _, _.
    rewrite !lookup_allValues by lia. repeat split.
    apply Z.le_ge, cumulative_antitone; [done|lia].
  - intros a b s t Ha Hb Hs Ht Hst.
    apply elem_of_items in Ha as (ta & _ & ->).
    apply elem_of_items in Hb as (tb & _ & ->).
    simpl in *. apply string_of_Z_inj in Hs, Ht. subst.
    by apply Z.le_ge, cumulative_antitone.
Qed.

End RatingMenuItems.




Lemma cumulative_counts_monotone_witness :
  exists c1 c2 : Z,
    RatingMenu.allValues 5 (default [] (RatingMenu.facetValues RatingMenu.scenario)) !! 2
      = Some c1
    /\ RatingMenu.allValues 5 (default [] (RatingMenu.facetValues RatingMenu.scenario)) !! (2 + 1)
      = Some c2
    /\ c1 >= c2.
Proof.
  destruct (cumulative_counts_monotone "grade" 5 RatingMenu.scenario emptyParameters)
    as [H _].
  - simpl. repeat constructor; simpl; lia.
  - apply (H 2). lia.
Defined.

(** ** The round trip through the UI state *)

Lemma fold_left_map_Int (a : string) (zs : list Z) (p : SearchParameters) :
  fold_left (fun parameters number =>
               addDisjunctiveFacetRefinement a number parameters)
    (map Int zs) p
  = fold_left (fun p z => addDisjunctiveFacetRefinement a (Int z) p) zs p.
Proof. revert p. induction zs as [|z zs IH]; intros p; simpl; [done|apply IH]. Qed.

Lemma range_upfrom (n e : Z) : RatingMenu.range (Int n) e = map Int (upfrom n (Z.to_nat (e - n))).
Proof. unfold RatingMenu.range, upfrom. by rewrite map_map. Qed.

Section RatingRoundTrip.

Variable attribute : string.
Variable max : Z.

Local Abbreviation getRefinedStar := (RatingMenu.getRefinedStar attribute).
Local Abbreviation roundTrip := (ratingRoundTrip attribute max).

Lemma configured_refinements (p : SearchParameters) :
  getDisjunctiveRefinements attribute
    (addDisjunctiveFacet attribute (clearRefinements attribute p)) = [].
Proof.
  unfold addDisjunctiveFacet, getDisjunctiveRefinements.
  destruct (isDisjunctiveFacet _ _); simpl; by rewrite lookup_delete_eq.
Qed.

Lemma rating_roundTrip_none (p : SearchParameters) :
  getDisjunctiveRefinements attribute p = [] ->
  getDisjunctiveRefinements attribute (roundTrip p) = [].
Proof.
  intros Hnone. unfold ratingRoundTrip, RatingMenu.getWidgetUiState,
    RatingMenu.getRefinedStar.
  rewrite Hnone. simpl.
  unfold RatingMenu.getWidgetSearchParameters. simpl.
  unfold getDisjunctiveRefinements. simpl. by rewrite lookup_insert_eq.
Qed.

Lemma rating_roundTrip_some (p : SearchParameters) (n : Z) :
  getRefinedStar p = JNum (Int n) -> n <> 0 ->
  getDisjunctiveRefinements attribute (roundTrip p)
  = map string_of_Z (RatingMenu.thresholdsFrom n max).
Proof.
  intros Hn Hn0. unfold ratingRoundTrip, RatingMenu.getWidgetUiState.
  rewrite Hn. simpl.
  unfold RatingMenu.getWidgetSearchParameters. cbn -[RatingMenu.range].
  rewrite lookup_insert_eq. cbn -[RatingMenu.range].
  rewrite (proj2 (Z.eqb_neq n 0)) by done. cbn -[RatingMenu.range].
  rewrite range_upfrom, fold_left_map_Int.
  replace (Z.to_nat (max + 1 - n)) with (trips n max) by done.
  apply (refinements_added attribute _ []).
  - apply configured_refinements.
  - apply NoDup_upfrom.
Qed.

Lemma rating_roundTrip_active (p : SearchParameters) (n : Z) :
  getRefinedStar p = JNum (Int n) -> n <> 0 -> n <= max ->
  getRefinedStar (roundTrip p) = JNum (Int n).
Proof.
  intros Hn Hn0 Hmax. unfold RatingMenu.getRefinedStar at 1.
  rewrite (rating_roundTrip_some p n) by done.
  unfold RatingMenu.thresholdsFrom, trips.
  replace (Z.to_nat (max + 1 - n)) with (S (Z.to_nat (max - n))) by lia.
  rewrite upfrom_S. simpl. rewrite Number_string_of_Z.
  f_equal. apply Math_min_upfrom. lia.
Qed.

End RatingRoundTrip.

Lemma find_last {A : Type} (f : A -> bool) (l : list A) (y : A) :
  Forall (fun x => f x = false) l -> f y = true ->
  List.find f (l ++ [y]) = Some y.
Proof.
  intros Hl Hy. induction Hl as [|x l Hx Hl IH]; simpl.
  - by rewrite Hy.
  - by rewrite Hx.
Qed.

Lemma removed_facet_undeclared (n : string) (p : SearchParameters) :
  Forall (fun f => bool_decide (hf_name f = n) = false)
    (hierarchicalFacets (removeHierarchicalFacet n p)).
Proof.
  unfold removeHierarchicalFacet, isHierarchicalFacet.
  apply Forall_forall. intros f Hf. apply bool_decide_eq_false.
  case_bool_decide as Hdecl; simpl in Hf.
  - by apply list_elem_of_filter in Hf as [Hne _].
  - intros <-. apply Hdecl, list_elem_of_In, in_map. by apply list_elem_of_In.
Qed.

Section HierarchicalRoundTrip.

Import HierarchicalMenu.

Variable hierarchicalFacetName : string.
Variable otherAttributes : list string.
Variable separator : string.
Variable rootPath : option string.
Variable showParentLevel : bool.
Variable limit : Z.
Variable showMore : bool.
Variable showMoreLimit : Z.

Local Abbreviation facetConfiguration :=
  (HierarchicalMenu.facetConfiguration hierarchicalFacetName otherAttributes
     separator rootPath showParentLevel).
Local Abbreviation roundTrip :=
  (hierarchicalRoundTrip hierarchicalFacetName otherAttributes separator
     rootPath showParentLevel limit showMore showMoreLimit).
Local Abbreviation breadcrumb :=
  (getHierarchicalFacetBreadcrumb hierarchicalFacetName).

Lemma configured_facet (p : SearchParameters) :
  List.find (fun f => bool_decide (hf_name f = hierarchicalFacetName))
    (hierarchicalFacets (removeHierarchicalFacet hierarchicalFacetName p)
     ++ [facetConfiguration])
  = Some facetConfiguration.
Proof.
  apply find_last; [apply removed_facet_undeclared|].
  by apply bool_decide_eq_true.
Qed.

Lemma hierarchical_roundTrip_none (p : SearchParameters) :
  breadcrumb p = [] -> breadcrumb (roundTrip p) = [].
Proof.
  intros Hnone.
  unfold hierarchicalRoundTrip, HierarchicalMenu.getWidgetUiState.
  rewrite Hnone. unfold HierarchicalMenu.getWidgetSearchParameters. simpl.
  unfold getHierarchicalFacetBreadcrumb, getHierarchicalRefinement. simpl.
  by rewrite lookup_insert_eq.
Qed.

Lemma hierarchical_roundTrip_declared (p : SearchParameters) :
  getHierarchicalFacetByName hierarchicalFacetName (roundTrip p)
  = Some facetConfiguration.
Proof.
  unfold hierarchicalRoundTrip, HierarchicalMenu.getWidgetSearchParameters.
  unfold getHierarchicalFacetByName.
  destruct (match hierarchicalMenu _ with Some m => _ | None => None end);
    cbn [hierarchicalFacets set_hierarchicalFacetsRefinements
           addHierarchicalFacetRefinement set_maxValuesPerFacet
           addHierarchicalFacet set_hierarchicalFacets];
    apply configured_facet.
Qed.

Lemma hierarchical_roundTrip_refinement (p : SearchParameters) :
  breadcrumb p <> [] ->
  getHierarchicalRefinement hierarchicalFacetName (roundTrip p)
  = [Str.join separator (breadcrumb p)].
Proof.
  intros Hne.
  unfold hierarchicalRoundTrip, HierarchicalMenu.getWidgetUiState.
  destruct (breadcrumb p) as [|x l] eqn:Hb; [done|].
  unfold HierarchicalMenu.getWidgetSearchParameters.
  cbn [hierarchicalMenu]. rewrite lookup_insert_eq.
  unfold getHierarchicalRefinement, addHierarchicalFacetRefinement.
  cbn [hierarchicalFacetsRefinements set_hierarchicalFacetsRefinements].
  by rewrite lookup_insert_eq.
Qed.

Lemma hierarchical_roundTrip_path (p : SearchParameters) :
  breadcrumbOf (facetSeparator (Some facetConfiguration))
    (Str.join separator (breadcrumb p)) = breadcrumb p ->
  breadcrumb (roundTrip p) = breadcrumb p.
Proof.
  intros Hstable.
  destruct (breadcrumb p) as [|x l] eqn:Hb;
    [by apply hierarchical_roundTrip_none|].
  unfold hierarchicalRoundTrip, HierarchicalMenu.getWidgetUiState.
  rewrite Hb. unfold HierarchicalMenu.getWidgetSearchParameters.
  cbn [hierarchicalMenu]. rewrite lookup_insert_eq.
  unfold getHierarchicalFacetBreadcrumb at 1.
  unfold getHierarchicalRefinement, addHierarchicalFacetRefinement.
  cbn [hierarchicalFacetsRefinements set_hierarchicalFacetsRefinements].
  rewrite lookup_insert_eq. cbn [default].
  unfold getHierarchicalFacetByName.
  cbn [hierarchicalFacets set_hierarchicalFacetsRefinements
         set_maxValuesPerFacet addHierarchicalFacet set_hierarchicalFacets].
  by rewrite configured_facet.
Qed.

End HierarchicalRoundTrip.

(** C3, amended: encoding the refinement of [p] into a UI state and decoding
    it again keeps, for the rating menu, "no refinement" and every active
    threshold that is a non-zero integer up to [max]; for the hierarchical
    menu, "no breadcrumb" and every breadcrumb that joining with the widget's
    separator and splitting again gives back. *)
Theorem roundTrip_keeps_refinement
    (attribute : string) (max : Z)
    (hierarchicalFacetName : string) (otherAttributes : list string)
    (separator : string) (rootPath : option string) (showParentLevel : bool)
    (limit : Z) (showMore : bool) (showMoreLimit : Z) (p : SearchParameters) :
  let rating := ratingRoundTrip attribute max p in
  let hierarchical :=
    hierarchicalRoundTrip hierarchicalFacetName otherAttributes separator
      rootPath showParentLevel limit showMore showMoreLimit p in
  let declared :=
    HierarchicalMenu.facetConfiguration hierarchicalFacetName otherAttributes
      separator rootPath showParentLevel in
  (getDisjunctiveRefinements attribute p = [] ->
   getDisjunctiveRefinements attribute rating = [])
  /\ (forall n : Z,
        RatingMenu.getRefinedStar attribute p = JNum (Int n) ->
        n <> 0 -> n <= max ->
        RatingMenu.getRefinedStar attribute rating = JNum (Int n))
  /\ (forall n : Z,
        RatingMenu.getRefinedStar attribute p = JNum (Int n) -> n <> 0 ->
        getDisjunctiveRefinements attribute rating
        = map string_of_Z (RatingMenu.thresholdsFrom n max))
  /\ getHierarchicalFacetByName hierarchicalFacetName hierarchical = Some declared
  /\ (getHierarchicalFacetBreadcrumb hierarchicalFacetName p <> [] ->
      getHierarchicalRefinement hierarchicalFacetName hierarchical
      = [Str.join separator (getHierarchicalFacetBreadcrumb hierarchicalFacetName p)])
  /\ (getHierarchicalFacetBreadcrumb hierarchicalFacetName p = [] ->
      getHierarchicalFacetBreadcrumb hierarchicalFacetName hierarchical = [])
  /\ (breadcrumbOf (facetSeparator (Some declared))
        (Str.join separator (getHierarchicalFacetBreadcrumb hierarchicalFacetName p))
      = getHierarchicalFacetBreadcrumb hierarchicalFacetName p ->
      getHierarchicalFacetBreadcrumb hierarchicalFacetName hierarchical
      = getHierarchicalFacetBreadcrumb hierarchicalFacetName p).
Proof.
  intros rating hierarchical declared. repeat split.
  - apply rating_roundTrip_none.
  - apply rating_roundTrip_active.
  - apply rating_roundTrip_some.
  - apply hierarchical_roundTrip_declared.
  - apply hierarchical_roundTrip_refinement.
  - apply hierarchical_roundTrip_none.
  - apply hierarchical_roundTrip_path.
Qed.

Lemma roundTrip_keeps_refinement_witness :
  let p :=
    HierarchicalMenu.getWidgetSearchParameters "cat" ["sub"] " > " None true
      10 false 20
      (RatingMenu.getWidgetSearchParameters "grade" 5 emptyParameters
         (mkUiState (Some {[ "grade" := JNum (Int 3) ]}) None))
      (mkUiState None (Some {[ "cat" := ["Shoes"; "Sneakers"] ]})) in
  getHierarchicalRefinement "cat" p = ["Shoes > Sneakers"]
  /\ RatingMenu.getRefinedStar "grade" (ratingRoundTrip "grade" 5 p) = JNum (Int 3)
  /\ getHierarchicalFacetBreadcrumb "cat"
       (hierarchicalRoundTrip "cat" ["sub"] " > " None true 10 false 20 p)
     = ["Shoes"; "Sneakers"].
Proof.
  intros p.
  destruct (roundTrip_keeps_refinement "grade" 5 "cat" ["sub"] " > " None true
              10 false 20 p) as (_ & Hr & _ & _ & _ & _ & Hh).
  split; [by vm_compute|]. split.
  - apply (Hr 3); [by vm_compute | lia | lia].
  - apply Hh. by vm_compute.
Defined.

(** C3 as stated fails.  Rating menu: the threshold 0 that [refine('0')]
    leaves is lost on the way back.  Hierarchical menu: a facet declared with
    another separator, whose path holds the widget's separator inside a
    segment, comes back with another breadcrumb. *)
Lemma roundTrip_changes_refinement :
  (RatingMenu.getRefinedStar "grade" RatingMenu.refinedAtZero = JNum (Int 0)
   /\ RatingMenu.getRefinedStar "grade"
        (ratingRoundTrip "grade" 5 RatingMenu.refinedAtZero) = JUndefined
   /\ RatingMenu.getRefinedStar "grade"
        (ratingRoundTrip "grade" 5 RatingMenu.refinedAtZero)
      <> RatingMenu.getRefinedStar "grade" RatingMenu.refinedAtZero)
  /\ (getHierarchicalFacetBreadcrumb "cat" HierarchicalMenu.declaredWithSlash
      = ["a > b"; "c"]
      /\ getHierarchicalFacetBreadcrumb "cat"
           (hierarchicalRoundTrip "cat" [] " > " None true 10 false 20
              HierarchicalMenu.declaredWithSlash)
         = ["a"; "b"; "c"]
      /\ getHierarchicalFacetBreadcrumb "cat"
           (hierarchicalRoundTrip "cat" [] " > " None true 10 false 20
              HierarchicalMenu.declaredWithSlash)
         <> getHierarchicalFacetBreadcrumb "cat" HierarchicalMenu.declaredWithSlash).
Proof. repeat split; by vm_compute. Qed.

(** ** The hierarchical menu: truncation *)

Lemma take_map_firstn {A B : Type} (f : A -> B) (k : nat) (l : list A) :
  take_map f k l = map f (firstn k l).
Proof.
  revert k. induction l as [|x l IH]; intros [|k]; simpl; try done.
  by rewrite IH.
Qed.

Lemma slice0_map_eq {A B : Type} (f : A -> B) (e : Z) (l : list A) :
  slice0_map f e l = map f (slice0 e l).
Proof. apply take_map_firstn. Qed.




Section HierarchicalMenuItems.

Import HierarchicalMenu.

Variable limit : Z.
Variable showMore : bool.
Variable showMoreLimit : Z.

Local Abbreviation getLimit := (HierarchicalMenu.getLimit limit showMoreLimit).
Local Abbreviation _prepareFacetValues :=
  (HierarchicalMenu._prepareFacetValues limit showMoreLimit).
Local Abbreviation getWidgetRenderState :=
  (HierarchicalMenu.getWidgetRenderState limit showMore showMoreLimit).




End HierarchicalMenuItems.


(** ** The hierarchical menu: show more *)

Section HierarchicalMenuShowMore.

Import HierarchicalMenu.

Variable limit : Z.
Variable showMore : bool.
Variable showMoreLimit : Z.
Variable transformItems : list Item -> list Item.

Local Abbreviation getLimit := (HierarchicalMenu.getLimit limit showMoreLimit).
Local Abbreviation getHasExhaustiveItems :=
  (HierarchicalMenu.getHasExhaustiveItems limit showMoreLimit).
Local Abbreviation spec_exhaustive :=
  (HierarchicalMenu.spec_exhaustive limit showMoreLimit).
Local Abbreviation getWidgetRenderState :=
  (HierarchicalMenu.getWidgetRenderState limit showMore showMoreLimit transformItems).
Local Abbreviation init :=
  (HierarchicalMenu.init limit showMore showMoreLimit transformItems).
Local Abbreviation render :=
  (HierarchicalMenu.render limit showMore showMoreLimit transformItems).
Local Abbreviation cachedToggleShowMore :=
  (HierarchicalMenu.cachedToggleShowMore limit showMore showMoreLimit transformItems).

Lemma bound_gt_spec (bound : option Z) (lim : Z) :
  bound_gt bound lim = true <-> exists b, bound = Some b /\ lim < b.
Proof.
  unfold bound_gt. destruct bound as [b|]; split.
  - intros H. exists b. split; [done|]. by apply Z.ltb_lt.
  - intros (b' & [= <-] & H). by apply Z.ltb_lt.
  - discriminate.
  - by intros (b & [=] & _).
Qed.

Lemma getHasExhaustiveItems_spec (ro : RenderOptions) (w : World) :
  getHasExhaustiveItems ro w = true <-> spec_exhaustive ro w.
Proof.
  unfold HierarchicalMenu.getHasExhaustiveItems, HierarchicalMenu.spec_exhaustive.
  destruct (results ro) as [r|]; [|split; [discriminate|by intros (r & [=] & _)]].
  pose proof (bound_gt_spec (maxValuesPerFacet (ro_state ro)) (getLimit w)) as Hb.
  destruct (bound_gt _ _); split.
  - intros H. exists r. split; [done|]. cbv zeta. split.
    + intros _. by apply Z.leb_le.
    + intros Hn. exfalso. by apply Hn, Hb.
  - intros (r' & [= <-] & H1 & _). apply Z.leb_le, H1. by apply Hb.
  - intros H. exists r. split; [done|]. cbv zeta. split.
    + intros Hg. apply Hb in Hg. discriminate.
    + intros _. by apply Z.ltb_lt.
  - intros (r' & [= <-] & _ & H2). apply Z.ltb_lt, H2.
    intros Hg. apply Hb in Hg. discriminate.
Qed.

(** C8: [canToggleShowMore] is true exactly when [showMore] is enabled and
    either [isShowingMore] is set or the facet values are not exhaustive in
    the spec's sense. *)
Theorem canToggleShowMore_iff (ro : RenderOptions) (w : World) :
  canToggleShowMore (fst (getWidgetRenderState ro w)) = true
  <-> showMore = true /\ (isShowingMore w = true \/ ~ spec_exhaustive ro w).
Proof.
  simpl. rewrite andb_true_iff, orb_true_iff, negb_true_iff.
  rewrite <- getHasExhaustiveItems_spec.
  destruct (getHasExhaustiveItems ro w); intuition congruence.
Qed.

(** C9, amended: once [render] has run, [toggleShowMore()] flips
    [isShowingMore], calls [renderFn] once more, not as a first rendering,
    with the render state of the render options of the last [render], and
    leaves the helper alone (no search); before the first [render] it does
    nothing.  [init], [render], [getWidgetRenderState] and [dispose] keep the
    flag, and [render] caches its options. *)
Theorem toggleShowMore_after_render (w : World) :
  (forall ro : RenderOptions,
     toggleShowMore w = Some ro ->
     let flipped :=
       mkWorld (negb (isShowingMore w)) (Some ro) (helper w) (rendered w)
         (transformed w) (unmounted w) in
     let w' := cachedToggleShowMore w in
     isShowingMore w' = negb (isShowingMore w)
     /\ rendered w' = rendered w ++ [(fst (getWidgetRenderState ro flipped), false)]
     /\ rs_isShowingMore (fst (getWidgetRenderState ro flipped))
        = negb (isShowingMore w)
     /\ helper w' = helper w
     /\ toggleShowMore w' = Some ro)
  /\ (toggleShowMore w = None -> cachedToggleShowMore w = w)
  /\ (forall ro : RenderOptions,
        toggleShowMore (render ro w) = Some ro
        /\ isShowingMore (render ro w) = isShowingMore w
        /\ helper (render ro w) = helper w)
  /\ (forall ro : RenderOptions,
        toggleShowMore (init ro w) = toggleShowMore w
        /\ isShowingMore (init ro w) = isShowingMore w
        /\ helper (init ro w) = helper w)
  /\ (forall (n : string) (p : SearchParameters),
        toggleShowMore (snd (dispose n p w)) = toggleShowMore w
        /\ isShowingMore (snd (dispose n p w)) = isShowingMore w)
  /\ (forall ro : RenderOptions,
        toggleShowMore (snd (getWidgetRenderState ro w)) = toggleShowMore w
        /\ isShowingMore (snd (getWidgetRenderState ro w)) = isShowingMore w).
Proof.
  split.
  { intros ro Hro. unfold HierarchicalMenu.cachedToggleShowMore. rewrite Hro.
    by destruct w. }
  split.
  { intros Hnone. unfold HierarchicalMenu.cachedToggleShowMore. by rewrite Hnone. }
  repeat split.
Qed.

End HierarchicalMenuShowMore.

Lemma toggleShowMore_after_render_witness :
  let ro := HierarchicalMenu.mkRenderOptions
              (Some (HierarchicalMenu.mkResults (Some []))) emptyParameters in
  let w := HierarchicalMenu.render 2 true 3 (fun items => items) ro
             (HierarchicalMenu.initialWorld (mkHelper emptyParameters 0)) in
  HierarchicalMenu.isShowingMore
    (HierarchicalMenu.cachedToggleShowMore 2 true 3 (fun items => items) w)
  = negb (HierarchicalMenu.isShowingMore w).
Proof.
  intros ro w.
  destruct (toggleShowMore_after_render 2 true 3 (fun items => items) w)
    as [H _].
  destruct (H ro) as [Hflag _]; [reflexivity|].
  exact Hflag.
Defined.

(** C9 as stated fails: the [toggleShowMore] delivered by [init] does nothing
    until [render] has run; the flag is not flipped and [renderFn] is not
    called again. *)
Lemma toggleShowMore_before_render_does_nothing :
  let ro := HierarchicalMenu.mkRenderOptions None emptyParameters in
  let w := HierarchicalMenu.init 2 true 3 (fun items => items) ro
             (HierarchicalMenu.initialWorld (mkHelper emptyParameters 0)) in
  let w' := HierarchicalMenu.cachedToggleShowMore 2 true 3 (fun items => items) w in
  length (HierarchicalMenu.rendered w) = 1%nat
  /\ HierarchicalMenu.isShowingMore w' <> negb (HierarchicalMenu.isShowingMore w)
  /\ HierarchicalMenu.rendered w' = HierarchicalMenu.rendered w.
Proof. repeat split. by vm_compute. Qed.

(** ** The hierarchical menu: [dispose] *)

(** C10: [dispose] returns parameters without the widget's hierarchical
    facet and with [maxValuesPerFacet] undefined, whatever bound the
    parameters held, and calls [unmountFn] once. *)
Theorem dispose_erases_maxValuesPerFacet
    (hierarchicalFacetName : string) (p : SearchParameters)
    (w : HierarchicalMenu.World) :
  let p' := fst (HierarchicalMenu.dispose hierarchicalFacetName p w) in
  isHierarchicalFacet hierarchicalFacetName p' = false
  /\ getHierarchicalFacetByName hierarchicalFacetName p' = None
  /\ maxValuesPerFacet p' = None
  /\ p' = set_maxValuesPerFacet None (removeHierarchicalFacet hierarchicalFacetName p)
  /\ HierarchicalMenu.unmounted (snd (HierarchicalMenu.dispose hierarchicalFacetName p w))
     = S (HierarchicalMenu.unmounted w)
  /\ maxValuesPerFacet
       (fst (HierarchicalMenu.dispose "cat"
               (set_maxValuesPerFacet (Some 100)
                  (HierarchicalMenu.getWidgetSearchParameters "cat" [] " > " None
                     true 10 false 20 emptyParameters emptyUiState))
               w))
     = None.
Proof.
  pose proof (removed_facet_undeclared hierarchicalFacetName p) as Hrm.
  cbv zeta. simpl. repeat split.
  - apply bool_decide_eq_false. intros Hin.
    apply list_elem_of_In, in_map_iff in Hin as (f & Hf & Hin).
    rewrite Forall_forall in Hrm. apply list_elem_of_In, Hrm in Hin.
    apply bool_decide_eq_false in Hin. done.
  - unfold getHierarchicalFacetByName. simpl.
    induction Hrm as [|f l Hf Hl IH]; simpl; [done|]. by rewrite Hf.
Qed.

(** * Further properties of the rating menu *)




Section RatingMenuMore.

Import RatingMenu.

Variable attribute : string.
Variable max : Z.

Local Abbreviation getRefinedStar := (RatingMenu.getRefinedStar attribute).
Local Abbreviation sendEvent := (RatingMenu.sendEvent attribute).
Local Abbreviation refine := (RatingMenu.refine attribute max).
Local Abbreviation refinements w := (getDisjunctiveRefinements attribute (state (helper w))).

(** X1: [sendEvent] never touches the helper and hands the insights sink at
    most one call, after the calls it already received. *)
Theorem sendEvent_sends_at_most_once (args : list jsval) (w : World) :
  helper (sendEvent args w) = helper w
  /\ exists sent : list SinkCall,
       insights (sendEvent args w) = insights w ++ sent
       /\ (length sent <= 1)%nat.
Proof.
  assert (H : sendEvent args w = w
              \/ exists c, sendEvent args w = sendEventToInsights c w).
  { unfold RatingMenu.sendEvent.
    destruct args as [|x [|y l]]; simpl;
      repeat match goal with |- context [if ?b then _ else _] => destruct b end;
      eauto. }
  destruct H as [->|[c ->]]; (split; [done|]).
  - exists []. rewrite app_nil_r. split; [done|simpl; lia].
  - exists [c]. split; [done|simpl; lia].
Qed.

(** X2: called with no argument or with two or more, [sendEvent] sends
    nothing unless the event type is the string ['click']. *)
Theorem sendEvent_ignores_other_event_types (args : list jsval) (w : World) :
  length args <> 1%nat ->
  strict_eq (nth 0 args JUndefined) (JStr "click") = false ->
  sendEvent args w = w.
Proof.
  intros Hlen Hty. unfold RatingMenu.sendEvent.
  destruct args as [|x [|y l]]; simpl in *; try done.
  by rewrite Hty.
Qed.

(** X3: a single argument is forwarded to the sink as it is, whatever is
    refined; a third argument of a click that adds a filter replaces the
    event name ['Filter Applied']. *)
Theorem sendEvent_forwards_payload_and_name
    (payload facetValue eventName : jsval) (w : World) :
  sendEvent [payload] w = sendEventToInsights (Custom payload) w
  /\ (eventName <> JUndefined ->
      strict_eq (getRefinedStar (state (helper w))) (JNum (Number facetValue))
        = false ->
      insights (sendEvent [JStr "click"; facetValue; eventName] w)
      = insights w
        ++ [Sent (mkInsightsEvent "clickedFilters" type (JStr "click") eventName
                    (getIndex (helper w))
                    [attribute +:+ ">=" +:+ ToString facetValue])])
  /\ sendEvent [JStr "click"; facetValue; JUndefined] w
     = sendEvent [JStr "click"; facetValue] w.
Proof.
  split; [done|]. split; [|done].
  intros Hname Hnew. unfold RatingMenu.sendEvent. simpl. rewrite Hnew. simpl.
  by destruct eventName.
Qed.


End RatingMenuMore.

Lemma sendEvent_ignores_other_event_types_witness :
  RatingMenu.sendEvent "swag" [JStr "view"; JStr "3"]
    (RatingMenu.mkWorld (mkHelper emptyParameters 0) [])
  = RatingMenu.mkWorld (mkHelper emptyParameters 0) [].
Proof.
  apply sendEvent_ignores_other_event_types; [simpl; lia|reflexivity].
Defined.

Lemma sendEvent_forwards_payload_and_name_witness :
  RatingMenu.insights
    (RatingMenu.sendEvent "swag" [JStr "click"; JStr "3"; JStr "Stars Clicked"]
       (RatingMenu.mkWorld (mkHelper emptyParameters 0) []))
  = [Sent (mkInsightsEvent "clickedFilters" RatingMenu.type (JStr "click")
             (JStr "Stars Clicked") "" ["swag>=3"])].
Proof.
  destruct (sendEvent_forwards_payload_and_name "swag" JUndefined (JStr "3")
              (JStr "Stars Clicked")
              (RatingMenu.mkWorld (mkHelper emptyParameters 0) []))
    as (_ & H & _).
  apply H; [discriminate|reflexivity].
Defined.


Lemma sameButRefinementsOf_refl (a : string) (p : SearchParameters) :
  sameButRefinementsOf a p p.
Proof. by repeat split. Qed.

Lemma sameButRefinementsOf_trans (a : string) (p q r : SearchParameters) :
  sameButRefinementsOf a p q -> sameButRefinementsOf a q r ->
  sameButRefinementsOf a p r.
Proof.
  intros (H1 & H2 & H3 & H4 & H5 & H6) (K1 & K2 & K3 & K4 & K5 & K6).
  repeat split; try congruence. intros b Hb. by rewrite K6, H6.
Qed.

Lemma removed_frame (a : string) (p : SearchParameters) :
  sameButRefinementsOf a p (removeDisjunctiveFacetRefinement a p).
Proof.
  repeat split. intros b Hb. simpl. by rewrite lookup_alter_ne.
Qed.

Lemma added_frame (a : string) (zs : list Z) (p : SearchParameters) :
  sameButRefinementsOf a p
    (fold_left (fun p z => addDisjunctiveFacetRefinement a (Int z) p) zs p).
Proof.
  revert p. induction zs as [|z zs IH]; intros p; simpl;
    [apply sameButRefinementsOf_refl|].
  eapply sameButRefinementsOf_trans; [|apply IH].
  unfold addDisjunctiveFacetRefinement. case_bool_decide;
    [apply sameButRefinementsOf_refl|].
  repeat split. intros b Hb. simpl. by rewrite lookup_insert_ne.
Qed.

Section RatingMenuToggle.

Import RatingMenu.

Variable attribute : string.
Variable max : Z.

Local Abbreviation getRefinedStar := (RatingMenu.getRefinedStar attribute).
Local Abbreviation refine := (RatingMenu.refine attribute max).
Local Abbreviation refinements w := (getDisjunctiveRefinements attribute (state (helper w))).

(** X5: [refine(v)] changes nothing in the search parameters but the
    disjunctive refinements of its own attribute: the index, the declared
    facets, the hierarchical refinements, [maxValuesPerFacet] and the
    refinements of every other attribute stay. *)
Theorem refine_keeps_other_parameters (v : jsval) (w : World) :
  sameButRefinementsOf attribute (state (helper w)) (state (helper (refine v w))).
Proof.
  rewrite refine_unfold. cbv zeta. cbn [helper state].
  destruct (strict_eq _ _); [apply removed_frame|].
  destruct (Number v); [|apply removed_frame].
  eapply sameButRefinementsOf_trans; [apply removed_frame|apply added_frame].
Qed.

Lemma ladder_active (p : SearchParameters) (n : Z) :
  n <= max ->
  getDisjunctiveRefinements attribute p = map string_of_Z (thresholdsFrom n max) ->
  getRefinedStar p = JNum (Int n).
Proof.
  intros Hn Hp. unfold RatingMenu.getRefinedStar. rewrite Hp.
  unfold thresholdsFrom, trips.
  replace (Z.to_nat (max + 1 - n)) with (S (Z.to_nat (max - n))) by lia.
  rewrite upfrom_S. simpl. rewrite Number_string_of_Z.
  f_equal. apply Math_min_upfrom. lia.
Qed.

(** X6: two clicks on the same threshold [n <= max] undo each other: from no
    refinement back to no refinement, from the threshold's refinements back
    to them; the helper searched twice. *)
Theorem refine_twice_restores (v : jsval) (n : Z) (w : World) :
  Number v = Int n -> n <= max ->
  refinements w = [] \/ refinements w = map string_of_Z (thresholdsFrom n max) ->
  refinements (refine v (refine v w)) = refinements w
  /\ searches (helper (refine v (refine v w))) = S (S (searches (helper w))).
Proof.
  intros Hv Hn Hw. split; [|by rewrite !refine_unfold].
  destruct Hw as [Hw|Hw].
  - assert (H0 : getRefinedStar (state (helper w)) = JUndefined).
    { unfold RatingMenu.getRefinedStar. by rewrite Hw. }
    rewrite refine_refinements.
    rewrite (refine_active attribute max v n w) by (done || by rewrite H0).
    rewrite Hv. simpl. by rewrite Z.eqb_refl, Hw.
  - pose proof (ladder_active _ n Hn Hw) as Ha.
    assert (H1 : getRefinedStar (state (helper (refine v w))) = JUndefined).
    { apply refine_inactive. rewrite Ha, Hv. simpl. apply Z.eqb_refl. }
    by rewrite refine_refinements, H1, Hv, Hw.
Qed.


End RatingMenuToggle.

Lemma refine_twice_restores_witness :
  getDisjunctiveRefinements "swag"
    (state (RatingMenu.helper
       (RatingMenu.refine "swag" 5 (JStr "3")
          (RatingMenu.refine "swag" 5 (JStr "3")
             (RatingMenu.mkWorld (mkHelper emptyParameters 0) [])))))
  = [].
Proof.
  destruct (refine_twice_restores "swag" 5 (JStr "3") 3
              (RatingMenu.mkWorld (mkHelper emptyParameters 0) []))
    as [H _]; [reflexivity | lia | by left |].
  exact H.
Defined.


Lemma upfrom_app (lo : Z) (a b : nat) :
  upfrom lo (a + b) = upfrom lo a ++ upfrom (lo + Z.of_nat a) b.
Proof.
  revert lo. induction a as [|a IH]; intros lo.
  - simpl. f_equal. lia.
  - change (S a + b)%nat with (S (a + b)).
    rewrite !upfrom_S, IH. simpl. do 2 f_equal. f_equal. lia.
Qed.

Lemma map_constant {A B : Type} (f : A -> B) (b : B) (l : list A) :
  (forall x, x ∈ l -> f x = b) -> map f l = replicate (length l) b.
Proof.
  induction l as [|x l IH]; intros H; simpl; [done|].
  rewrite (H x) by by left. f_equal. apply IH. intros y Hy. apply H. by right.
Qed.

Lemma upfrom_length (lo : Z) (k : nat) : length (upfrom lo k) = k.
Proof. unfold upfrom. by rewrite length_map, length_seq. Qed.

Lemma downfrom_length (hi : Z) (k : nat) : length (downfrom hi k) = k.
Proof. unfold downfrom. by rewrite length_map, length_seq. Qed.

Lemma NoDup_List_filter {A : Type} (f : A -> bool) (l : list A) :
  NoDup l -> NoDup (List.filter f l).
Proof.
  induction 1 as [|x l Hx Hl IH]; simpl; [constructor|].
  destruct (f x); [|done]. constructor; [|done].
  rewrite list_elem_of_In, filter_In, <- list_elem_of_In. by intros [? _].
Qed.

Section RatingMenuTable.

Import RatingMenu.

Variable attribute : string.
Variable max : Z.

Local Abbreviation allValues := (RatingMenu.allValues max).
Local Abbreviation items := (RatingMenu.items attribute max).

(** The entry [t] of the table after one more reported facet. *)
Lemma lookup_addFacet_any (m : gmap Z Z) (f : FacetValue) (t : Z) :
  addFacet max m f !! t
  = match reportedValue f with
    | Int z =>
      if decide (z <> 0 /\ z <= max /\ 1 <= t <= z)
      then (fun c => c + count f) <$> m !! t
      else m !! t
    | NaN => m !! t
    end.
Proof.
  unfold addFacet, reportedValue, Math_round.
  destruct (Number (JStr (name f))) as [z|]; [|done].
  cbn [truthy gt_max].
  destruct (decide (z <> 0 /\ z <= max /\ 1 <= t <= z)) as [(Hz & Hm & Ht)|Hd].
  - rewrite (proj2 (Z.eqb_neq z 0)), (proj2 (Z.ltb_ge max z)) by lia.
    cbn [negb orb].
    rewrite for_down_fold, lookup_fold_alter by apply NoDup_downfrom.
    rewrite decide_True; [done|]. apply elem_of_downfrom. unfold trips. lia.
  - destruct (Z.eqb_spec z 0) as [->|Hz]; cbn [negb orb]; [done|].
    destruct (Z.ltb_spec max z) as [Hm|Hm]; [done|].
    rewrite for_down_fold, lookup_fold_alter by apply NoDup_downfrom.
    rewrite decide_False; [done|]. rewrite elem_of_downfrom. unfold trips. lia.
Qed.


Lemma lookup_fold_addFacet_dom (facets : list FacetValue) (m : gmap Z Z) (t : Z) :
  (is_Some (fold_left (addFacet max) facets m !! t) <-> is_Some (m !! t))
  /\ (t < 1 -> fold_left (addFacet max) facets m !! t = m !! t).
Proof.
  revert m. induction facets as [|f facets IH]; intros m; simpl; [done|].
  destruct (IH (addFacet max m f)) as [IH1 IH2].
  rewrite IH1. split.
  - rewrite lookup_addFacet_any. destruct (reportedValue f); [|done].
    case_decide; [|done]. by rewrite fmap_is_Some.
  - intros Ht. rewrite IH2 by done. rewrite lookup_addFacet_any.
    destruct (reportedValue f); [|done]. rewrite decide_False; [done|]. lia.
Qed.

(** X9: the table of counts has exactly the entries [0..max], whatever the
    results report, and its entry [0] stays [0]. *)
Theorem allValues_entries (facets : list FacetValue) (t : Z) :
  (is_Some (allValues facets !! t) <-> 0 <= t <= max)
  /\ (0 <= max -> allValues facets !! 0 = Some 0).
Proof.
  unfold RatingMenu.allValues.
  destruct (lookup_fold_addFacet_dom facets (initValues max) t) as [H1 _].
  destruct (lookup_fold_addFacet_dom facets (initValues max) 0) as [_ H2].
  split.
  - rewrite H1, lookup_initValues. case_decide; split; try done.
  - intros Hmax. rewrite H2 by lia. rewrite lookup_initValues.
    by rewrite decide_True by lia.
Qed.

(** X10: the stars of a threshold [star] between [0] and [max] are [star]
    times [true], then [max - star] times [false]. *)
Theorem starsOf_true_then_false (star : Z) :
  0 <= star <= max ->
  starsOf max star
  = replicate (Z.to_nat star) true ++ replicate (Z.to_nat (max - star)) false.
Proof.
  intros Hs. rewrite starsOf_eq.
  replace (Z.to_nat max) with (Z.to_nat star + Z.to_nat (max - star))%nat by lia.
  rewrite upfrom_app, map_app. f_equal.
  - rewrite (map_constant _ true), upfrom_length; [done|].
    intros z Hz. apply elem_of_upfrom in Hz. apply Z.leb_le. lia.
  - rewrite (map_constant _ false), upfrom_length; [done|].
    intros z Hz. apply elem_of_upfrom in Hz. apply Z.leb_gt. lia.
Qed.

(** X11: there are at most [max - 1] items (none when [max <= 1]), no two
    with the same value, and the name of each is its value. *)
Theorem items_distinct_and_bounded (r : Results) (p : SearchParameters) :
  (length (items (Some r) p) <= Z.to_nat (max - 1))%nat
  /\ NoDup (map item_value (items (Some r) p))
  /\ Forall (fun item => item_name item = item_value item) (items (Some r) p).
Proof.
  rewrite items_thresholds. cbv zeta. repeat split.
  - rewrite length_map.
    etransitivity; [apply List.filter_length_le|].
    unfold RatingMenu.thresholds, trips. rewrite downfrom_length. lia.
  - rewrite map_map. simpl.
    assert (Hinj : Inj (=) (=) string_of_Z) by exact string_of_Z_inj.
    match goal with |- NoDup (map _ ?l) => change (NoDup (string_of_Z <$> l)) end.
    apply NoDup_fmap_2; [done|].
    apply NoDup_List_filter, NoDup_downfrom.
  - apply Forall_forall. intros item Hitem.
    apply list_elem_of_In, in_map_iff in Hitem as (t & <- & _). done.
Qed.

End RatingMenuTable.


Lemma starsOf_true_then_false_witness :
  RatingMenu.starsOf 5 3 = [true; true; true; false; false].
Proof. apply (starsOf_true_then_false 5 3). lia. Defined.

(** * Further properties of the rating menu's state mapping *)

Lemma string_of_Z_nonempty (z : Z) : string_of_Z z <> "".
Proof.
  intros E. pose proof (Number_string_of_Z z) as H. rewrite E in H.
  unfold Number_of_string in H.
  assert (Hs : NilZero.string_of_int (Z.to_int z) = "") by exact E.
  assert (Hi : NilZero.int_of_string (NilZero.string_of_int (Z.to_int z))
               = Some (Z.to_int z)).
  { apply NilZero.isi; destruct z; simpl; try discriminate;
      intros [= E']; exact (DecimalPos.Unsigned.to_uint_nonnil _ E'). }
  rewrite Hs in Hi. discriminate.
Qed.

Lemma added_record (a : string) (zs l : list Z) (p : SearchParameters) :
  getDisjunctiveRefinements a p = map string_of_Z l ->
  NoDup (l ++ zs) ->
  fold_left (fun p z => addDisjunctiveFacetRefinement a (Int z) p) zs p
  = match zs with
    | [] => p
    | _ =>
      set_disjunctiveFacetsRefinements
        (<[a := map string_of_Z (l ++ zs)]> (disjunctiveFacetsRefinements p)) p
    end.
Proof.
  revert l p. induction zs as [|z zs IH]; intros l p Hp Hnd; [done|].
  cbn [fold_left].
  assert (Hz : z ∉ l).
  { apply NoDup_app in Hnd as (_ & Hd & _). intros Hin. apply (Hd z Hin). by left. }
  assert (Hadd : addDisjunctiveFacetRefinement a (Int z) p
                 = set_disjunctiveFacetsRefinements
                     (<[a := map string_of_Z (l ++ [z])]>
                        (disjunctiveFacetsRefinements p)) p).
  { unfold addDisjunctiveFacetRefinement. cbn [ToString].
    rewrite bool_decide_eq_false_2.
    - by rewrite Hp, map_app.
    - rewrite Hp, list_elem_of_In, in_map_iff. intros (y & E & Hy).
      apply string_of_Z_inj in E. subst y. by apply Hz, list_elem_of_In. }
  replace (l ++ z :: zs) with ((l ++ [z]) ++ zs) in * by by rewrite <- app_assoc.
  rewrite (IH (l ++ [z])); [| by apply refinement_added | done].
  rewrite Hadd. destruct zs as [|z' zs]; [by rewrite app_nil_r|].
  unfold set_disjunctiveFacetsRefinements. simpl. by rewrite insert_insert_eq.
Qed.

Section RatingMenuState.

Import RatingMenu.

Variable attribute : string.
Variable max : Z.

Local Abbreviation getRefinedStar := (RatingMenu.getRefinedStar attribute).
Local Abbreviation getWidgetUiState := (RatingMenu.getWidgetUiState attribute).
Local Abbreviation getWidgetSearchParameters :=
  (RatingMenu.getWidgetSearchParameters attribute max).
Local Abbreviation dispose := (RatingMenu.dispose attribute).

(** The parameters [getWidgetSearchParameters] returns, field by field: the
    refinements of the attribute are replaced by a list that the UI state
    alone decides. *)
Lemma getWidgetSearchParameters_shape (uiState : UiState) :
  exists o : option (list string),
    forall p : SearchParameters,
      getWidgetSearchParameters p uiState
      = mkSearchParameters (index p)
          (if bool_decide (attribute ∈ disjunctiveFacets p)
           then disjunctiveFacets p else disjunctiveFacets p ++ [attribute])
          (match o with
           | Some l => <[attribute := l]> (delete attribute (disjunctiveFacetsRefinements p))
           | None => delete attribute (disjunctiveFacetsRefinements p)
           end)
          (hierarchicalFacets p)
          (delete attribute (hierarchicalFacetsRefinements p))
          (maxValuesPerFacet p).
Proof.
  unfold RatingMenu.getWidgetSearchParameters.
  set (value := match ratingMenu uiState with
                | Some m => default JUndefined (m !! attribute)
                | None => JUndefined
                end).
  assert (Hdecl : forall p,
            addDisjunctiveFacet attribute (clearRefinements attribute p)
            = mkSearchParameters (index p)
                (if bool_decide (attribute ∈ disjunctiveFacets p)
                 then disjunctiveFacets p else disjunctiveFacets p ++ [attribute])
                (delete attribute (disjunctiveFacetsRefinements p))
                (hierarchicalFacets p)
                (delete attribute (hierarchicalFacetsRefinements p))
                (maxValuesPerFacet p)).
  { intros p. unfold addDisjunctiveFacet, isDisjunctiveFacet. simpl.
    by case_bool_decide. }
  destruct (truthy value) eqn:Ht; cbn [negb].
  - destruct (Number value) as [n|] eqn:Hn.
    + destruct (thresholdsFrom n max) as [|z zs] eqn:Hzs.
      * exists None. intros p. rewrite range_upfrom, fold_left_map_Int.
        replace (Z.to_nat (max + 1 - n)) with (trips n max) by done.
        fold (thresholdsFrom n max). rewrite Hzs. simpl. apply Hdecl.
      * exists (Some (map string_of_Z (z :: zs))). intros p.
        rewrite range_upfrom, fold_left_map_Int.
        replace (Z.to_nat (max + 1 - n)) with (trips n max) by done.
        fold (thresholdsFrom n max).
        rewrite (added_record attribute _ []).
        -- rewrite Hzs, Hdecl. done.
        -- apply configured_refinements.
        -- apply NoDup_upfrom.
    + exists None. intros p. simpl. apply Hdecl.
  - exists (Some []). intros p. by rewrite Hdecl.
Qed.

Lemma getWidgetUiState_own_entry (u : UiState) (p : SearchParameters) :
  getDisjunctiveRefinements attribute p <> [] ->
  (ratingMenu (getWidgetUiState u p) ≫= (fun m => m !! attribute))
  = Some (getRefinedStar p).
Proof.
  unfold RatingMenu.getWidgetUiState, RatingMenu.getRefinedStar.
  destruct (getDisjunctiveRefinements attribute p) as [|r rs]; [done|].
  intros _. simpl. by rewrite lookup_insert_eq.
Qed.

(** X12: [getWidgetUiState] returns the UI state it was given when nothing
    is refined; otherwise it sets its attribute's entry to the active
    threshold and keeps the entries of the other attributes and the
    hierarchical-menu namespace. *)
Theorem rating_getWidgetUiState_keeps_others (u : UiState) (p : SearchParameters) :
  (getDisjunctiveRefinements attribute p = [] -> getWidgetUiState u p = u)
  /\ (getDisjunctiveRefinements attribute p <> [] ->
      (ratingMenu (getWidgetUiState u p) ≫= (fun m => m !! attribute))
      = Some (getRefinedStar p))
  /\ hierarchicalMenu (getWidgetUiState u p) = hierarchicalMenu u
  /\ (forall b : string, b <> attribute ->
        (ratingMenu (getWidgetUiState u p) ≫= (fun m => m !! b))
        = (ratingMenu u ≫= (fun m => m !! b))).
Proof.
  unfold RatingMenu.getWidgetUiState, RatingMenu.getRefinedStar.
  destruct (getDisjunctiveRefinements attribute p) as [|r rs]; simpl.
  - repeat split; done.
  - repeat split; try done.
    + intros _. by rewrite lookup_insert_eq.
    + intros b Hb. rewrite lookup_insert_ne by done.
      destruct (ratingMenu u); simpl; [done|apply lookup_empty].
Qed.

(** X13: [getWidgetSearchParameters] declares the attribute as a
    disjunctive facet and keeps every facet declared before, the index, the
    hierarchical facets, [maxValuesPerFacet] and the refinements of every
    other attribute; the refinements it returns for its own attribute do not
    depend on the ones it was given. *)
Theorem rating_getWidgetSearchParameters_frame
    (p q : SearchParameters) (uiState : UiState) :
  let p' := getWidgetSearchParameters p uiState in
  isDisjunctiveFacet attribute p' = true
  /\ (forall f : string, f ∈ disjunctiveFacets p -> f ∈ disjunctiveFacets p')
  /\ index p' = index p
  /\ hierarchicalFacets p' = hierarchicalFacets p
  /\ maxValuesPerFacet p' = maxValuesPerFacet p
  /\ (forall b : string, b <> attribute ->
        getDisjunctiveRefinements b p' = getDisjunctiveRefinements b p
        /\ getHierarchicalRefinement b p' = getHierarchicalRefinement b p)
  /\ getDisjunctiveRefinements attribute p'
     = getDisjunctiveRefinements attribute (getWidgetSearchParameters q uiState).
Proof.
  destruct (getWidgetSearchParameters_shape uiState) as [o Ho].
  cbv zeta. rewrite !Ho. unfold isDisjunctiveFacet, getDisjunctiveRefinements,
    getHierarchicalRefinement. simpl. repeat split.
  - apply bool_decide_eq_true. case_bool_decide; [done|].
    apply elem_of_app. right. by left.
  - intros f Hf. case_bool_decide; [done|]. apply elem_of_app. by left.
  - destruct o; by rewrite ?lookup_insert_ne, lookup_delete_ne by done.
  - by rewrite lookup_delete_ne by done.
  - destruct o; by rewrite ?lookup_insert_eq, ?lookup_delete_eq.
Qed.

(** X14: [getWidgetSearchParameters] is idempotent: decoding the same UI
    state into its own result changes nothing. *)
Theorem rating_getWidgetSearchParameters_idempotent
    (p : SearchParameters) (uiState : UiState) :
  getWidgetSearchParameters (getWidgetSearchParameters p uiState) uiState
  = getWidgetSearchParameters p uiState.
Proof.
  destruct (getWidgetSearchParameters_shape uiState) as [o Ho].
  rewrite (Ho (getWidgetSearchParameters p uiState)), (Ho p). simpl.
  f_equal.
  - destruct (bool_decide (attribute ∈ disjunctiveFacets p)) eqn:E.
    + by rewrite E.
    + rewrite bool_decide_eq_true_2; [done|]. apply elem_of_app. right. by left.
  - destruct o; by rewrite ?delete_insert_eq, delete_delete_eq.
  - by rewrite delete_delete_eq.
Qed.

(** X15: a threshold read from the UI state as the string of an integer [n]
    is decoded for every [n], zero included, whereas the number [0] (like a
    missing entry) is decoded as "no refinement". *)
Theorem rating_uiState_zero_string_vs_number
    (p : SearchParameters) (m : gmap string jsval) (h : option (gmap string (list string)))
    (n : Z) :
  (m !! attribute = Some (JStr (string_of_Z n)) ->
   getDisjunctiveRefinements attribute
     (getWidgetSearchParameters p (mkUiState (Some m) h))
   = map string_of_Z (thresholdsFrom n max))
  /\ (m !! attribute = Some (JNum (Int 0)) \/ m !! attribute = None ->
      getDisjunctiveRefinements attribute
        (getWidgetSearchParameters p (mkUiState (Some m) h))
      = []).
Proof.
  split.
  - intros Hm. unfold RatingMenu.getWidgetSearchParameters.
    cbn [ratingMenu]. rewrite Hm. cbn [default from_option id truthy].
    destruct (String.eqb_spec (string_of_Z n) "") as [E|_];
      [by apply string_of_Z_nonempty in E|].
    cbn [negb Number]. rewrite Number_string_of_Z.
    rewrite range_upfrom, fold_left_map_Int.
    replace (Z.to_nat (max + 1 - n)) with (trips n max) by done.
    apply (refinements_added attribute _ []).
    + apply configured_refinements.
    + apply NoDup_upfrom.
  - intros Hm. unfold RatingMenu.getWidgetSearchParameters.
    cbn [ratingMenu].
    destruct Hm as [-> | ->]; simpl;
      unfold getDisjunctiveRefinements; simpl; by rewrite lookup_insert_eq.
Qed.

(** X16: a threshold of the UI state that is a non-zero integer up to [max]
    survives decoding into search parameters and encoding again. *)
Theorem rating_uiState_roundTrip
    (p : SearchParameters) (u : UiState) (m : gmap string jsval)
    (h : option (gmap string (list string))) (n : Z) :
  m !! attribute = Some (JNum (Int n)) -> n <> 0 -> n <= max ->
  (ratingMenu
     (getWidgetUiState u (getWidgetSearchParameters p (mkUiState (Some m) h)))
   ≫= (fun m' => m' !! attribute))
  = Some (JNum (Int n)).
Proof.
  intros Hm Hn0 Hn.
  assert (Hrefs : getDisjunctiveRefinements attribute
                    (getWidgetSearchParameters p (mkUiState (Some m) h))
                  = map string_of_Z (thresholdsFrom n max)).
  { unfold RatingMenu.getWidgetSearchParameters.
    cbn [ratingMenu]. rewrite Hm. cbn [default from_option id truthy].
    rewrite (proj2 (Z.eqb_neq n 0)) by done. cbn [negb Number].
    rewrite range_upfrom, fold_left_map_Int.
    replace (Z.to_nat (max + 1 - n)) with (trips n max) by done.
    apply (refinements_added attribute _ []).
    - apply configured_refinements.
    - apply NoDup_upfrom. }
  rewrite getWidgetUiState_own_entry.
  - f_equal. by apply (ladder_active attribute max _ n).
  - rewrite Hrefs. unfold thresholdsFrom, trips.
    replace (Z.to_nat (max + 1 - n)) with (S (Z.to_nat (max - n))) by lia.
    by rewrite upfrom_S.
Qed.

(** X17: [dispose] after [getWidgetSearchParameters] leaves the parameters
    it started from, less the attribute's declaration and refinements,
    whatever the UI state was; parameters that did not mention the attribute
    come back unchanged. *)
Theorem rating_dispose_undoes_getWidgetSearchParameters
    (p : SearchParameters) (uiState : UiState) :
  dispose (getWidgetSearchParameters p uiState)
  = set_disjunctiveFacets
      (filter (fun f => f <> attribute) (disjunctiveFacets p))
      (clearRefinements attribute p)
  /\ (attribute ∉ disjunctiveFacets p ->
      disjunctiveFacetsRefinements p !! attribute = None ->
      hierarchicalFacetsRefinements p !! attribute = None ->
      dispose (getWidgetSearchParameters p uiState) = p).
Proof.
  assert (Heq : dispose (getWidgetSearchParameters p uiState)
                = set_disjunctiveFacets
                    (filter (fun f => f <> attribute) (disjunctiveFacets p))
                    (clearRefinements attribute p)).
  { destruct (getWidgetSearchParameters_shape uiState) as [o Ho].
    rewrite Ho. unfold RatingMenu.dispose, removeDisjunctiveFacet,
      isDisjunctiveFacet. cbn [disjunctiveFacets].
    rewrite bool_decide_eq_true_2.
    2:{ case_bool_decide; [done|]. apply elem_of_app. right. by left. }
    unfold set_disjunctiveFacets, clearRefinements,
      set_hierarchicalFacetsRefinements, set_disjunctiveFacetsRefinements.
    simpl. f_equal.
    - case_bool_decide; [done|]. rewrite filter_app, filter_cons.
      rewrite decide_False by (by intros H'; apply H').
      by rewrite filter_nil, app_nil_r.
    - destruct o; by rewrite ?delete_insert_eq, delete_delete_eq.
    - by rewrite delete_delete_eq. }
  split; [exact Heq|].
  intros Hdecl Hr Hh. rewrite Heq.
  unfold set_disjunctiveFacets, clearRefinements,
    set_hierarchicalFacetsRefinements, set_disjunctiveFacetsRefinements.
  simpl. rewrite !delete_id by done.
  replace (filter (fun f => f <> attribute) (disjunctiveFacets p))
    with (disjunctiveFacets p); [by destruct p|].
  symmetry. clear -Hdecl. induction (disjunctiveFacets p) as [|f l IH]; [done|].
  rewrite filter_cons. rewrite decide_True.
  - f_equal. apply IH. intros H. apply Hdecl. by right.
  - intros ->. apply Hdecl. by left.
Qed.

End RatingMenuState.

Lemma rating_getWidgetUiState_keeps_others_witness :
  (ratingMenu
     (RatingMenu.getWidgetUiState "grade"
        (mkUiState (Some {[ "rating" := JNum (Int 4) ]}) None)
        RatingMenu.refinedAtMax)
   ≫= (fun m => m !! "rating"))
  = Some (JNum (Int 4)).
Proof.
  destruct (rating_getWidgetUiState_keeps_others "grade"
              (mkUiState (Some {[ "rating" := JNum (Int 4) ]}) None)
              RatingMenu.refinedAtMax) as (_ & _ & _ & H).
  rewrite (H "rating"); [reflexivity|discriminate].
Defined.

Lemma rating_getWidgetSearchParameters_frame_witness :
  getDisjunctiveRefinements "grade"
    (RatingMenu.getWidgetSearchParameters "rating" 5 RatingMenu.refinedAtMax
       (mkUiState (Some {[ "rating" := JNum (Int 4) ]}) None))
  = ["5"].
Proof.
  destruct (rating_getWidgetSearchParameters_frame "rating" 5
              RatingMenu.refinedAtMax emptyParameters
              (mkUiState (Some {[ "rating" := JNum (Int 4) ]}) None))
    as (_ & _ & _ & _ & _ & H & _).
  destruct (H "grade") as [Hd _]; [discriminate|].
  rewrite Hd. reflexivity.
Defined.

Lemma rating_uiState_zero_string_vs_number_witness :
  getDisjunctiveRefinements "grade"
    (RatingMenu.getWidgetSearchParameters "grade" 5 emptyParameters
       (mkUiState (Some {[ "grade" := JStr "0" ]}) None))
  = ["0"; "1"; "2"; "3"; "4"; "5"]
  /\ getDisjunctiveRefinements "grade"
       (RatingMenu.getWidgetSearchParameters "grade" 5 emptyParameters
          (mkUiState (Some {[ "grade" := JNum (Int 0) ]}) None))
     = [].
Proof.
  split.
  - destruct (rating_uiState_zero_string_vs_number "grade" 5 emptyParameters
                {[ "grade" := JStr "0" ]} None 0) as [H _].
    rewrite H; reflexivity.
  - destruct (rating_uiState_zero_string_vs_number "grade" 5 emptyParameters
                {[ "grade" := JNum (Int 0) ]} None 0) as [_ H].
    apply H. left. reflexivity.
Defined.

Lemma rating_uiState_roundTrip_witness :
  (ratingMenu
     (RatingMenu.getWidgetUiState "grade" emptyUiState
        (RatingMenu.getWidgetSearchParameters "grade" 5 emptyParameters
           (mkUiState (Some {[ "grade" := JNum (Int 3) ]}) None)))
   ≫= (fun m' => m' !! "grade"))
  = Some (JNum (Int 3)).
Proof.
  apply rating_uiState_roundTrip; [reflexivity | lia | lia].
Defined.

Lemma rating_dispose_undoes_getWidgetSearchParameters_witness :
  RatingMenu.dispose "grade"
    (RatingMenu.getWidgetSearchParameters "grade" 5 emptyParameters
       (mkUiState (Some {[ "grade" := JNum (Int 3) ]}) None))
  = emptyParameters.
Proof.
  destruct (rating_dispose_undoes_getWidgetSearchParameters "grade" 5
              emptyParameters
              (mkUiState (Some {[ "grade" := JNum (Int 3) ]}) None)) as [_ H].
  apply H; [simpl; apply not_elem_of_nil | reflexivity | reflexivity].
Defined.

(** * Further properties of the hierarchical menu's state mapping *)

Lemma removed_facets (n : string) (p : SearchParameters) :
  hierarchicalFacets (removeHierarchicalFacet n p)
  = filter (fun f => hf_name f <> n) (hierarchicalFacets p).
Proof.
  unfold removeHierarchicalFacet, isHierarchicalFacet.
  case_bool_decide as Hdecl; [done|].
  induction (hierarchicalFacets p) as [|f l IH]; [done|].
  rewrite filter_cons, decide_True.
  - f_equal. apply IH. intros Hin. apply Hdecl. simpl. by right.
  - intros E. apply Hdecl. simpl. rewrite E. by left.
Qed.

Lemma removed_facet_frame (n : string) (p : SearchParameters) :
  index (removeHierarchicalFacet n p) = index p
  /\ disjunctiveFacets (removeHierarchicalFacet n p) = disjunctiveFacets p
  /\ maxValuesPerFacet (removeHierarchicalFacet n p) = maxValuesPerFacet p
  /\ (forall b : string, b <> n ->
        disjunctiveFacetsRefinements (removeHierarchicalFacet n p) !! b
        = disjunctiveFacetsRefinements p !! b
        /\ hierarchicalFacetsRefinements (removeHierarchicalFacet n p) !! b
           = hierarchicalFacetsRefinements p !! b).
Proof.
  unfold removeHierarchicalFacet. destruct (isHierarchicalFacet n p); [|done].
  simpl. repeat split; by rewrite lookup_delete_ne.
Qed.

Section HierarchicalMenuState.

Import HierarchicalMenu.

Variable hierarchicalFacetName : string.
Variable otherAttributes : list string.
Variable separator : string.
Variable rootPath : option string.
Variable showParentLevel : bool.
Variable limit : Z.
Variable showMore : bool.
Variable showMoreLimit : Z.

Local Abbreviation facetConfiguration :=
  (HierarchicalMenu.facetConfiguration hierarchicalFacetName otherAttributes
     separator rootPath showParentLevel).
Local Abbreviation getWidgetSearchParameters :=
  (HierarchicalMenu.getWidgetSearchParameters hierarchicalFacetName
     otherAttributes separator rootPath showParentLevel limit showMore
     showMoreLimit).
Local Abbreviation getWidgetUiState :=
  (HierarchicalMenu.getWidgetUiState hierarchicalFacetName).
Local Abbreviation breadcrumb :=
  (getHierarchicalFacetBreadcrumb hierarchicalFacetName).

(** X18: [getWidgetSearchParameters] never lowers [maxValuesPerFacet]: the
    bound it returns is the greater of the bound it was given ([0] when there
    was none) and the limit the widget needs, [showMoreLimit] with
    [showMore], [limit] without. *)
Theorem hierarchical_bound_never_lowered (p : SearchParameters) (uiState : UiState) :
  let need := if showMore then showMoreLimit else limit in
  let p' := getWidgetSearchParameters p uiState in
  maxValuesPerFacet p' = Some (Z.max (default 0 (maxValuesPerFacet p)) need)
  /\ (forall b' : Z, maxValuesPerFacet p' = Some b' ->
        need <= b'
        /\ forall b : Z, maxValuesPerFacet p = Some b -> b <= b')
  /\ maxValuesPerFacet (getWidgetSearchParameters p' uiState) = maxValuesPerFacet p'.
Proof.
  assert (H : forall q u,
            maxValuesPerFacet (getWidgetSearchParameters q u)
            = Some (Z.max (default 0 (maxValuesPerFacet q))
                      (if showMore then showMoreLimit else limit))).
  { intros q u. unfold HierarchicalMenu.getWidgetSearchParameters.
    destruct (removed_facet_frame hierarchicalFacetName q) as (_ & _ & Hm & _).
    destruct (match hierarchicalMenu u with Some m => _ | None => None end);
      simpl; by rewrite Hm. }
  cbv zeta. rewrite !H. repeat split.
  - injection H0 as <-. lia.
  - intros b Hb. injection H0 as <-. rewrite Hb. simpl. lia.
  - simpl. f_equal. lia.
Qed.

(** X19: whatever was declared under the facet's name, and however often,
    [getWidgetSearchParameters] returns the other hierarchical facets in
    their order followed by one declaration with the widget's configuration;
    the index and the disjunctive facets stay. *)
Theorem hierarchical_facet_declared_once (p : SearchParameters) (uiState : UiState) :
  let p' := getWidgetSearchParameters p uiState in
  hierarchicalFacets p'
  = filter (fun f => hf_name f <> hierarchicalFacetName) (hierarchicalFacets p)
    ++ [facetConfiguration]
  /\ filter (fun f => hf_name f = hierarchicalFacetName) (hierarchicalFacets p')
     = [facetConfiguration]
  /\ index p' = index p
  /\ disjunctiveFacets p' = disjunctiveFacets p.
Proof.
  assert (H : hierarchicalFacets (getWidgetSearchParameters p uiState)
              = filter (fun f => hf_name f <> hierarchicalFacetName)
                  (hierarchicalFacets p) ++ [facetConfiguration]).
  { unfold HierarchicalMenu.getWidgetSearchParameters.
    destruct (match hierarchicalMenu uiState with Some m => _ | None => None end);
      simpl; by rewrite removed_facets. }
  destruct (removed_facet_frame hierarchicalFacetName p) as (Hi & Hd & _ & _).
  cbv zeta. split; [exact H|]. split; [|split].
  - rewrite H, filter_app, filter_cons.
    rewrite decide_True by reflexivity. rewrite filter_nil.
    assert (Hnone : forall l : list HierarchicalFacet,
              filter (fun f => hf_name f = hierarchicalFacetName)
                (filter (fun f => hf_name f <> hierarchicalFacetName) l) = []).
    { induction l as [|f l IH]; [done|].
      rewrite filter_cons. case_decide as Hf; [|exact IH].
      rewrite filter_cons, decide_False by exact Hf. exact IH. }
    by rewrite Hnone.
  - unfold HierarchicalMenu.getWidgetSearchParameters.
    destruct (match hierarchicalMenu uiState with Some m => _ | None => None end);
      simpl; exact Hi.
  - unfold HierarchicalMenu.getWidgetSearchParameters.
    destruct (match hierarchicalMenu uiState with Some m => _ | None => None end);
      simpl; exact Hd.
Qed.

(** X20: the path [getWidgetSearchParameters] refines is the UI state's
    breadcrumb joined with the separator, or none without a breadcrumb,
    whatever path was refined before; the refinements of every other
    attribute, disjunctive or hierarchical, stay. *)
Theorem hierarchical_refinement_from_uiState
    (p : SearchParameters) (r : option (gmap string jsval))
    (m : gmap string (list string)) :
  let p' := getWidgetSearchParameters p (mkUiState r (Some m)) in
  getHierarchicalRefinement hierarchicalFacetName p'
  = match m !! hierarchicalFacetName with
    | Some values => [Str.join separator values]
    | None => []
    end
  /\ getHierarchicalRefinement hierarchicalFacetName
       (getWidgetSearchParameters p (mkUiState r None)) = []
  /\ (forall b : string, b <> hierarchicalFacetName ->
        getHierarchicalRefinement b p' = getHierarchicalRefinement b p
        /\ getDisjunctiveRefinements b p' = getDisjunctiveRefinements b p).
Proof.
  destruct (removed_facet_frame hierarchicalFacetName p) as (_ & _ & _ & Hf).
  cbv zeta. unfold HierarchicalMenu.getWidgetSearchParameters,
    getHierarchicalRefinement, getDisjunctiveRefinements.
  cbn [hierarchicalMenu]. repeat split.
  - destruct (m !! hierarchicalFacetName); simpl; by rewrite lookup_insert_eq.
  - simpl. by rewrite lookup_insert_eq.
  - destruct (Hf b H) as [_ Hh].
    destruct (m !! hierarchicalFacetName); simpl;
      by rewrite lookup_insert_ne, Hh by done.
  - destruct (Hf b H) as [Hd _].
    destruct (m !! hierarchicalFacetName); simpl; by rewrite Hd.
Qed.

Lemma configured_separator (p : SearchParameters) (uiState : UiState) :
  getHierarchicalFacetByName hierarchicalFacetName
    (getWidgetSearchParameters p uiState)
  = Some facetConfiguration.
Proof.
  unfold HierarchicalMenu.getWidgetSearchParameters, getHierarchicalFacetByName.
  destruct (match hierarchicalMenu uiState with Some m => _ | None => None end);
    cbn [hierarchicalFacets set_hierarchicalFacetsRefinements
           addHierarchicalFacetRefinement set_maxValuesPerFacet
           addHierarchicalFacet set_hierarchicalFacets];
    apply configured_facet.
Qed.

(** X21: a breadcrumb of the UI state survives decoding into search
    parameters and encoding again whenever joining it with the separator and
    splitting at the separator gives it back; an empty breadcrumb comes back
    as no entry at all. *)
Theorem hierarchical_uiState_roundTrip
    (p : SearchParameters) (u : UiState) (r : option (gmap string jsval))
    (m : gmap string (list string)) (path : list string) :
  m !! hierarchicalFacetName = Some path ->
  breadcrumbOf (facetSeparator (Some facetConfiguration)) (Str.join separator path)
    = path ->
  let u' := getWidgetUiState u (getWidgetSearchParameters p (mkUiState r (Some m))) in
  (path <> [] ->
   (hierarchicalMenu u' ≫= (fun m' => m' !! hierarchicalFacetName)) = Some path)
  /\ (path = [] -> u' = u).
Proof.
  intros Hm Hstable.
  assert (Hb : breadcrumb (getWidgetSearchParameters p (mkUiState r (Some m)))
               = path).
  { unfold getHierarchicalFacetBreadcrumb.
    rewrite configured_separator.
    unfold HierarchicalMenu.getWidgetSearchParameters, getHierarchicalRefinement.
    cbn [hierarchicalMenu]. rewrite Hm.
    cbn [hierarchicalFacetsRefinements addHierarchicalFacetRefinement
           set_hierarchicalFacetsRefinements].
    rewrite lookup_insert_eq. exact Hstable. }
  cbv zeta. unfold HierarchicalMenu.getWidgetUiState. rewrite Hb.
  split.
  - intros Hne. destruct path as [|x l]; [done|]. simpl.
    by rewrite lookup_insert_eq.
  - by intros ->.
Qed.

(** X22: the hierarchical [getWidgetUiState] returns the UI state it was
    given when the facet has no breadcrumb; otherwise it sets the facet's
    entry to the breadcrumb and keeps the entries of the other facets and the
    rating-menu namespace. *)
Theorem hierarchical_getWidgetUiState_keeps_others (u : UiState) (p : SearchParameters) :
  (breadcrumb p = [] -> getWidgetUiState u p = u)
  /\ (breadcrumb p <> [] ->
      (hierarchicalMenu (getWidgetUiState u p) ≫= (fun m => m !! hierarchicalFacetName))
      = Some (breadcrumb p))
  /\ ratingMenu (getWidgetUiState u p) = ratingMenu u
  /\ (forall b : string, b <> hierarchicalFacetName ->
        (hierarchicalMenu (getWidgetUiState u p) ≫= (fun m => m !! b))
        = (hierarchicalMenu u ≫= (fun m => m !! b))).
Proof.
  unfold HierarchicalMenu.getWidgetUiState.
  destruct (breadcrumb p) as [|x l]; simpl.
  - repeat split; done.
  - repeat split; try done.
    + intros _. by rewrite lookup_insert_eq.
    + intros b Hb. rewrite lookup_insert_ne by done.
      destruct (hierarchicalMenu u); simpl; [done|apply lookup_empty].
Qed.

(** X23: [dispose] keeps the other hierarchical facets in their order, the
    index, the disjunctive facets and the refinements of every other
    attribute; when the facet was declared its breadcrumb is gone. *)
Theorem hierarchical_dispose_keeps_others (p : SearchParameters) (w : World) :
  let p' := fst (dispose hierarchicalFacetName p w) in
  hierarchicalFacets p'
  = filter (fun f => hf_name f <> hierarchicalFacetName) (hierarchicalFacets p)
  /\ index p' = index p
  /\ disjunctiveFacets p' = disjunctiveFacets p
  /\ (forall b : string, b <> hierarchicalFacetName ->
        getHierarchicalRefinement b p' = getHierarchicalRefinement b p
        /\ getDisjunctiveRefinements b p' = getDisjunctiveRefinements b p)
  /\ (isHierarchicalFacet hierarchicalFacetName p = true -> breadcrumb p' = []).
Proof.
  destruct (removed_facet_frame hierarchicalFacetName p) as (Hi & Hd & _ & Hf).
  cbv zeta. simpl. repeat split; try done.
  - apply removed_facets.
  - unfold getHierarchicalRefinement. simpl. by destruct (Hf b H) as [_ ->].
  - unfold getDisjunctiveRefinements. simpl. by destruct (Hf b H) as [-> _].
  - intros Hdecl. unfold getHierarchicalFacetBreadcrumb, getHierarchicalRefinement,
      removeHierarchicalFacet. rewrite Hdecl. simpl.
    by rewrite lookup_delete_eq.
Qed.

End HierarchicalMenuState.

Lemma hierarchical_bound_never_lowered_witness :
  100 <= 100
  /\ maxValuesPerFacet
       (HierarchicalMenu.getWidgetSearchParameters "cat" [] " > " None true 10
          true 20 (set_maxValuesPerFacet (Some 100) emptyParameters) emptyUiState)
     = Some 100.
Proof.
  destruct (hierarchical_bound_never_lowered "cat" [] " > " None true 10 true 20
              (set_maxValuesPerFacet (Some 100) emptyParameters) emptyUiState)
    as (H & Hle & _).
  destruct (Hle 100 H) as [_ Hprev].
  split; [apply (Hprev 100); reflexivity | exact H].
Defined.

Lemma hierarchical_refinement_from_uiState_witness :
  getDisjunctiveRefinements "grade"
    (HierarchicalMenu.getWidgetSearchParameters "cat" ["sub"] " > " None true
       10 false 20 RatingMenu.refinedAtMax
       (mkUiState None (Some {[ "cat" := ["Shoes"; "Sneakers"] ]})))
  = ["5"].
Proof.
  destruct (hierarchical_refinement_from_uiState "cat" ["sub"] " > " None true
              10 false 20 RatingMenu.refinedAtMax None
              {[ "cat" := ["Shoes"; "Sneakers"] ]}) as (_ & _ & H).
  destruct (H "grade") as [_ Hd]; [discriminate|].
  rewrite Hd. reflexivity.
Defined.

Lemma hierarchical_uiState_roundTrip_witness :
  (hierarchicalMenu
     (HierarchicalMenu.getWidgetUiState "cat" emptyUiState
        (HierarchicalMenu.getWidgetSearchParameters "cat" ["sub"] " > " None
           true 10 false 20 emptyParameters
           (mkUiState None (Some {[ "cat" := ["Shoes"; "Sneakers"] ]}))))
   ≫= (fun m' => m' !! "cat"))
  = Some ["Shoes"; "Sneakers"].
Proof.
  destruct (hierarchical_uiState_roundTrip "cat" ["sub"] " > " None true 10
              false 20 emptyParameters emptyUiState None
              {[ "cat" := ["Shoes"; "Sneakers"] ]} ["Shoes"; "Sneakers"])
    as [H _]; [reflexivity | by vm_compute |].
  apply H. discriminate.
Defined.

Lemma hierarchical_getWidgetUiState_keeps_others_witness :
  (hierarchicalMenu
     (HierarchicalMenu.getWidgetUiState "cat"
        (mkUiState None (Some {[ "brand" := ["Acme"] ]}))
        (HierarchicalMenu.getWidgetSearchParameters "cat" ["sub"] " > " None
           true 10 false 20 emptyParameters
           (mkUiState None (Some {[ "cat" := ["Shoes"; "Sneakers"] ]}))))
   ≫= (fun m => m !! "brand"))
  = Some ["Acme"].
Proof.
  destruct (hierarchical_getWidgetUiState_keeps_others "cat"
              (mkUiState None (Some {[ "brand" := ["Acme"] ]}))
              (HierarchicalMenu.getWidgetSearchParameters "cat" ["sub"] " > "
                 None true 10 false 20 emptyParameters
                 (mkUiState None (Some {[ "cat" := ["Shoes"; "Sneakers"] ]}))))
    as (_ & _ & _ & H).
  rewrite (H "brand"); [reflexivity|discriminate].
Defined.

Lemma hierarchical_dispose_keeps_others_witness :
  getHierarchicalFacetBreadcrumb "cat"
    (fst (HierarchicalMenu.dispose "cat"
            (HierarchicalMenu.getWidgetSearchParameters "cat" ["sub"] " > " None
               true 10 false 20 emptyParameters
               (mkUiState None (Some {[ "cat" := ["Shoes"; "Sneakers"] ]})))
            (HierarchicalMenu.initialWorld (mkHelper emptyParameters 0))))
  = [].
Proof.
  destruct (hierarchical_dispose_keeps_others "cat"
              (HierarchicalMenu.getWidgetSearchParameters "cat" ["sub"] " > "
                 None true 10 false 20 emptyParameters
                 (mkUiState None (Some {[ "cat" := ["Shoes"; "Sneakers"] ]})))
              (HierarchicalMenu.initialWorld (mkHelper emptyParameters 0)))
    as (_ & _ & _ & _ & H).
  apply H. reflexivity.
Defined.

(** * Further properties of the hierarchical menu's rendering *)

Lemma take_map_fields (lim : Z) (l : list HierarchicalMenu.FacetValue) (k : nat) :
  map item_fields (take_map (HierarchicalMenu.prepareFacetValue lim) k l)
  = map facet_fields (take k l).
Proof.
  rewrite take_map_firstn, map_map. apply map_ext. by intros [].
Qed.

Section HierarchicalMenuRendering.

Import HierarchicalMenu.

Variable limit : Z.
Variable showMore : bool.
Variable showMoreLimit : Z.
Variable transformItems : list Item -> list Item.

Local Abbreviation getLimit := (HierarchicalMenu.getLimit limit showMoreLimit).
Local Abbreviation validOptions :=
  (HierarchicalMenu.validOptions limit showMore showMoreLimit).
Local Abbreviation _prepareFacetValues :=
  (HierarchicalMenu._prepareFacetValues limit showMoreLimit).
Local Abbreviation getWidgetRenderState :=
  (HierarchicalMenu.getWidgetRenderState limit showMore showMoreLimit transformItems).
Local Abbreviation init :=
  (HierarchicalMenu.init limit showMore showMoreLimit transformItems).
Local Abbreviation render :=
  (HierarchicalMenu.render limit showMore showMoreLimit transformItems).
Local Abbreviation cachedToggleShowMore :=
  (HierarchicalMenu.cachedToggleShowMore limit showMore showMoreLimit transformItems).

(** X24: [_prepareFacetValues] keeps the first facet values in their order,
    with their label, value, count and [isRefined]; with a limit [>= 0] it
    keeps [min(limit, n)] of [n], and with a negative limit it drops that
    many from the end instead of keeping none. *)
Theorem prepareFacetValues_keeps_first (w : World) (l : list FacetValue) :
  map item_fields (_prepareFacetValues w l)
  = map facet_fields (take (length (_prepareFacetValues w l)) l)
  /\ (0 <= getLimit w ->
      length (_prepareFacetValues w l) = Nat.min (Z.to_nat (getLimit w)) (length l))
  /\ (getLimit w < 0 ->
      length (_prepareFacetValues w l) = (length l - Z.to_nat (- getLimit w))%nat).
Proof.
  assert (Hlen : length (_prepareFacetValues w l)
                 = Nat.min (slice_end (length l) (getLimit w)) (length l)).
  { unfold HierarchicalMenu._prepareFacetValues. rewrite slice0_map_eq.
    unfold slice0. by rewrite length_map, length_take. }
  repeat split.
  - unfold HierarchicalMenu._prepareFacetValues at 1, slice0_map.
    rewrite take_map_fields, Hlen.
    by rewrite <- take_take, (take_ge l (length l)) by lia.
  - intros Hl. rewrite Hlen. unfold slice_end.
    rewrite (proj2 (Z.ltb_ge (getLimit w) 0)) by lia. lia.
  - intros Hl. rewrite Hlen. unfold slice_end.
    rewrite (proj2 (Z.ltb_lt (getLimit w) 0)) by lia. lia.
Qed.

(** X25: with [0 <= limit <= showMoreLimit], showing more only adds: the
    top-level values shown without "show more" are, in the same order, the
    first ones shown with it. *)
Theorem show_more_only_adds (w1 w2 : World) (l : list FacetValue) :
  0 <= limit <= showMoreLimit ->
  isShowingMore w1 = false -> isShowingMore w2 = true ->
  map item_fields (_prepareFacetValues w1 l)
  `prefix_of` map item_fields (_prepareFacetValues w2 l).
Proof.
  intros Hlim H1 H2.
  unfold HierarchicalMenu._prepareFacetValues, slice0_map,
    HierarchicalMenu.getLimit.
  rewrite H1, H2, !take_map_fields. unfold slice_end.
  rewrite (proj2 (Z.ltb_ge limit 0)), (proj2 (Z.ltb_ge showMoreLimit 0)) by lia.
  set (k1 := Nat.min (Z.to_nat limit) (length l)).
  set (k2 := Nat.min (Z.to_nat showMoreLimit) (length l)).
  replace (take k1 l) with (take k1 (take k2 l))
    by (rewrite take_take; f_equal; lia).
  exists (map facet_fields (drop k1 (take k2 l))).
  by rewrite <- map_app, take_drop.
Qed.

(** X26: a widget built with [showMore] has [limit < showMoreLimit] (the
    factory refuses the others), so the first toggle raises the display limit
    strictly; two toggles after a [render] bring the flag and the limit back,
    call [renderFn] twice and never search. *)
Theorem toggle_raises_then_restores (w : World) (ro : RenderOptions) :
  toggleShowMore w = Some ro ->
  (validOptions = true -> showMore = true -> isShowingMore w = false ->
   getLimit w < getLimit (cachedToggleShowMore w))
  /\ isShowingMore (cachedToggleShowMore (cachedToggleShowMore w)) = isShowingMore w
  /\ getLimit (cachedToggleShowMore (cachedToggleShowMore w)) = getLimit w
  /\ length (rendered (cachedToggleShowMore (cachedToggleShowMore w)))
     = S (S (length (rendered w)))
  /\ helper (cachedToggleShowMore (cachedToggleShowMore w)) = helper w.
Proof.
  intros Hro.
  assert (H1 : cachedToggleShowMore w
               = HierarchicalMenu.createToggleShowMore limit showMore
                   showMoreLimit transformItems ro w).
  { unfold HierarchicalMenu.cachedToggleShowMore. by rewrite Hro. }
  assert (H2 : toggleShowMore (cachedToggleShowMore w) = Some ro).
  { by rewrite H1. }
  assert (H3 : cachedToggleShowMore (cachedToggleShowMore w)
               = HierarchicalMenu.createToggleShowMore limit showMore
                   showMoreLimit transformItems ro (cachedToggleShowMore w)).
  { unfold HierarchicalMenu.cachedToggleShowMore at 1. by rewrite H2. }
  repeat split.
  - intros Hvalid Hshow Hoff. rewrite H1.
    unfold HierarchicalMenu.getLimit. simpl. rewrite Hoff. simpl.
    unfold HierarchicalMenu.validOptions in Hvalid. rewrite Hshow in Hvalid.
    simpl in Hvalid. apply negb_true_iff, Z.leb_gt in Hvalid. lia.
  - rewrite H3, H1. simpl. apply negb_involutive.
  - rewrite H3, H1. unfold HierarchicalMenu.getLimit. simpl.
    by rewrite negb_involutive.
  - rewrite H3, H1. simpl. rewrite !length_app. simpl. lia.
  - by rewrite H3, H1.
Qed.

(** X27: [init] and [render] each call [renderFn] exactly once, [init] as
    the first rendering and [render] not, and [transformItems] exactly once;
    without results the items are [transformItems([])] and
    [canToggleShowMore] is [showMore] before any toggle. *)
Theorem init_and_render_deliver_once (ro : RenderOptions) (w : World) :
  (exists rs, rendered (init ro w) = rendered w ++ [(rs, true)]
     /\ (results ro = None ->
         items rs = transformItems []
         /\ (isShowingMore w = false -> canToggleShowMore rs = showMore)))
  /\ (exists rs, rendered (render ro w) = rendered w ++ [(rs, false)]
        /\ rs = fst (getWidgetRenderState ro w))
  /\ length (transformed (init ro w)) = S (length (transformed w))
  /\ length (transformed (render ro w)) = S (length (transformed w))
  /\ helper (init ro w) = helper w.
Proof.
  repeat split.
  - eexists. split; [reflexivity|]. intros Hnone. simpl.
    unfold HierarchicalMenu.getHasExhaustiveItems. rewrite Hnone. split; [done|].
    intros ->. simpl. by rewrite andb_true_r.
  - eexists. split; reflexivity.
  - simpl. rewrite length_app. simpl. lia.
  - simpl. rewrite length_app. simpl. lia.
Qed.

End HierarchicalMenuRendering.

Lemma prepareFacetValues_keeps_first_witness :
  let leaf := fun n => HierarchicalMenu.mkFacetValue n n 1 false None in
  let w := HierarchicalMenu.initialWorld (mkHelper emptyParameters 0) in
  length (HierarchicalMenu._prepareFacetValues (-1) 3 w [leaf "a"; leaf "b"; leaf "c"])
  = (3 - Z.to_nat (- HierarchicalMenu.getLimit (-1) 3 w))%nat.
Proof.
  intros leaf w.
  destruct (prepareFacetValues_keeps_first (-1) 3 w [leaf "a"; leaf "b"; leaf "c"])
    as (_ & _ & H).
  apply H. by vm_compute.
Defined.

Lemma show_more_only_adds_witness :
  let leaf := fun n => HierarchicalMenu.mkFacetValue n n 1 false None in
  let w1 := HierarchicalMenu.mkWorld false None (mkHelper emptyParameters 0) [] [] 0 in
  let w2 := HierarchicalMenu.mkWorld true None (mkHelper emptyParameters 0) [] [] 0 in
  map item_fields (HierarchicalMenu._prepareFacetValues 1 2 w1 [leaf "a"; leaf "b"; leaf "c"])
  `prefix_of`
  map item_fields (HierarchicalMenu._prepareFacetValues 1 2 w2 [leaf "a"; leaf "b"; leaf "c"]).
Proof.
  intros leaf w1 w2.
  apply show_more_only_adds; [lia | reflexivity | reflexivity].
Defined.

Lemma toggle_raises_then_restores_witness :
  let ro := HierarchicalMenu.mkRenderOptions
              (Some (HierarchicalMenu.mkResults (Some []))) emptyParameters in
  let w := HierarchicalMenu.render 10 true 20 (fun items => items) ro
             (HierarchicalMenu.initialWorld (mkHelper emptyParameters 0)) in
  HierarchicalMenu.getLimit 10 20 w
  < HierarchicalMenu.getLimit 10 20
      (HierarchicalMenu.cachedToggleShowMore 10 true 20 (fun items => items) w).
Proof.
  intros ro w.
  destruct (toggle_raises_then_restores 10 true 20 (fun items => items) w ro)
    as [H _]; [reflexivity|].
  apply H; reflexivity.
Defined.

Lemma init_and_render_deliver_once_witness :
  exists rs,
    HierarchicalMenu.rendered
      (HierarchicalMenu.init 10 true 20 (fun items => items)
         (HierarchicalMenu.mkRenderOptions None emptyParameters)
         (HierarchicalMenu.initialWorld (mkHelper emptyParameters 0)))
    = [(rs, true)]
    /\ HierarchicalMenu.items rs = []
    /\ HierarchicalMenu.canToggleShowMore rs = true.
Proof.
  destruct (init_and_render_deliver_once 10 true 20 (fun items => items)
              (HierarchicalMenu.mkRenderOptions None emptyParameters)
              (HierarchicalMenu.initialWorld (mkHelper emptyParameters 0)))
    as [(rs & Hrs & H) _].
  exists rs. split; [exact Hrs|].
  destruct (H eq_refl) as [Hitems Hcan]. split; [exact Hitems|].
  apply Hcan. reflexivity.
Defined.

(** * [getRenderState] *)

(** X28: [getRenderState] of either connector stores the widget's render
    state under its own attribute in its own namespace, and keeps the render
    states of the other attributes and the whole namespace of the other
    connector; the hierarchical one has the effects of one
    [getWidgetRenderState] call and no other. *)
Theorem getRenderState_keeps_other_entries
    (attribute : string) (max : Z)
    (results : option RatingMenu.Results) (state : SearchParameters)
    (hierarchicalFacetName : string) (limit : Z) (showMore : bool)
    (showMoreLimit : Z)
    (transformItems : list HierarchicalMenu.Item -> list HierarchicalMenu.Item)
    (ro : HierarchicalMenu.RenderOptions) (w : HierarchicalMenu.World)
    (renderState : RenderStates.IndexRenderState) :
  let rating :=
    RenderStates.ratingGetRenderState attribute max renderState results state in
  let hierarchical :=
    RenderStates.hierarchicalGetRenderState hierarchicalFacetName limit showMore
      showMoreLimit transformItems renderState ro w in
  let widget :=
    HierarchicalMenu.getWidgetRenderState limit showMore showMoreLimit
      transformItems ro w in
  (RenderStates.rs_ratingMenu rating ≫= (fun m => m !! attribute))
    = Some (RenderStates.ratingWidgetRenderState attribute max results state)
  /\ (forall b : string, b <> attribute ->
        (RenderStates.rs_ratingMenu rating ≫= (fun m => m !! b))
        = (RenderStates.rs_ratingMenu renderState ≫= (fun m => m !! b)))
  /\ RenderStates.rs_hierarchicalMenu rating
     = RenderStates.rs_hierarchicalMenu renderState
  /\ (RenderStates.rs_hierarchicalMenu (fst hierarchical)
        ≫= (fun m => m !! hierarchicalFacetName))
     = Some (fst widget)
  /\ (forall b : string, b <> hierarchicalFacetName ->
        (RenderStates.rs_hierarchicalMenu (fst hierarchical) ≫= (fun m => m !! b))
        = (RenderStates.rs_hierarchicalMenu renderState ≫= (fun m => m !! b)))
  /\ RenderStates.rs_ratingMenu (fst hierarchical)
     = RenderStates.rs_ratingMenu renderState
  /\ snd hierarchical = snd widget.
Proof.
  cbv zeta. simpl. repeat split.
  - by rewrite lookup_insert_eq.
  - intros b Hb. rewrite lookup_insert_ne by done.
    destruct (RenderStates.rs_ratingMenu renderState); simpl;
      [done|apply lookup_empty].
  - by rewrite lookup_insert_eq.
  - intros b Hb. rewrite lookup_insert_ne by done.
    destruct (RenderStates.rs_hierarchicalMenu renderState); simpl;
      [done|apply lookup_empty].
Qed.

Lemma getRenderState_keeps_other_entries_witness :
  let other := RenderStates.mkRatingRenderState [] true in
  (RenderStates.rs_ratingMenu
     (RenderStates.ratingGetRenderState "grade" 5
        (RenderStates.mkIndexRenderState (Some {[ "rating" := other ]}) None)
        (Some RatingMenu.scenario) emptyParameters)
   ≫= (fun m => m !! "rating"))
  = Some other.
Proof.
  intros other.
  destruct (getRenderState_keeps_other_entries "grade" 5
              (Some RatingMenu.scenario) emptyParameters "cat" 10 false 20
              (fun items => items)
              (HierarchicalMenu.mkRenderOptions None emptyParameters)
              (HierarchicalMenu.initialWorld (mkHelper emptyParameters 0))
              (RenderStates.mkIndexRenderState (Some {[ "rating" := other ]}) None))
    as (_ & H & _).
  rewrite (H "rating"); [reflexivity|discriminate].
Defined.

Lemma allValues_entries_witness :
  RatingMenu.allValues 5
    (default [] (RatingMenu.facetValues RatingMenu.scenario)) !! 0 = Some 0.
Proof.
  destruct (allValues_entries 5
              (default [] (RatingMenu.facetValues RatingMenu.scenario)) 0)
    as [_ H].
  apply H. lia.
Defined.
